(** * exchange_calendars: errors, the US futures calendar and the XTAI calendar

  A shallow embedding of
    - [exchange_calendars/errors.py],
    - [exchange_calendars/us_futures_calendar.py],
    - [exchange_calendars/exchange_calendar_xtai.py],
  together with the properties their specification states about them. *)

From Stdlib Require Import ZArith List String Ascii Lia Bool QArith.
From stdpp Require Import base option list gmap strings.
Import ListNotations.

Local Open Scope Z_scope.

(** ** Exceptions and results

  Python code either returns a value or raises.  A computation that can
  raise returns a [result]. *)

Inductive exn : Set :=
| OverflowError        (* datetime arithmetic leaves [MINYEAR, MAXYEAR] *)
| OutOfBoundsDatetime  (* pandas Timestamp arithmetic leaves the int64 range *)
| KeyError             (* str.format: a named field without a keyword *)
| ValueError           (* str.format: a malformed template *)
| AttributeError       (* attribute access on None *)
| ConstructionError.   (* a session index that violates its invariants *)

Inductive result (A : Type) : Type :=
| Ok (a : A)
| Raise (e : exn).

Arguments Ok {A} a.
Arguments Raise {A} e.

Definition rbind {A B} (r : result A) (k : A -> result B) : result B :=
  match r with
  | Ok a => k a
  | Raise e => Raise e
  end.

Notation "x <-- r ;; k" := (rbind r (fun x => k))
  (at level 100, r at next level, right associativity).

Fixpoint rmap {A B} (f : A -> result B) (l : list A) : result (list B) :=
  match l with
  | [] => Ok []
  | a :: l' => b <-- f a ;; bs <-- rmap f l' ;; Ok (b :: bs)
  end.

(** ** Dates

  [datetime.datetime] values at midnight, as the holiday machinery produces
  them.  Adding a [timedelta] of whole days leaves the time of day alone, so a
  datetime is represented by its proleptic Gregorian ordinal
  ([datetime.toordinal()]: 0001-01-01 is day 1).  The functions below are
  the ones of CPython's [datetime] module. *)

Definition datetime := Z.

Definition MINYEAR : Z := 1.
Definition MAXYEAR : Z := 9999.
Definition MAXORDINAL : Z := 3652059.   (* date(9999, 12, 31).toordinal() *)

Definition DI400Y : Z := 146097.
Definition DI100Y : Z := 36524.
Definition DI4Y : Z := 1461.

Definition is_leap (year : Z) : bool :=
  (year mod 4 =? 0) && (negb (year mod 100 =? 0) || (year mod 400 =? 0)).

Definition days_before_year (year : Z) : Z :=
  let y := year - 1 in
  y * 365 + y / 4 - y / 100 + y / 400.

(* _DAYS_IN_MONTH = [-1, 31, 28, 31, 30, 31, 30, 31, 31, 30, 31, 30, 31] *)
Definition DAYS_IN_MONTH (month : Z) : Z :=
  match month with
  | 1 => 31 | 2 => 28 | 3 => 31 | 4 => 30 | 5 => 31 | 6 => 30
  | 7 => 31 | 8 => 31 | 9 => 30 | 10 => 31 | 11 => 30 | 12 => 31
  | _ => -1
  end.

(* _DAYS_BEFORE_MONTH: number of days in the year before the month *)
Definition DAYS_BEFORE_MONTH (month : Z) : Z :=
  match month with
  | 1 => 0 | 2 => 31 | 3 => 59 | 4 => 90 | 5 => 120 | 6 => 151
  | 7 => 181 | 8 => 212 | 9 => 243 | 10 => 273 | 11 => 304 | 12 => 334
  | _ => -1
  end.

Definition days_in_month (year month : Z) : Z :=
  if (month =? 2) && is_leap year then 29 else DAYS_IN_MONTH month.

Definition days_before_month (year month : Z) : Z :=
  DAYS_BEFORE_MONTH month + (if (month >? 2) && is_leap year then 1 else 0).

(** [_ymd2ord]: the ordinal of [datetime(year, month, day)]. *)
Definition ymd2ord (year month day : Z) : datetime :=
  days_before_year year + days_before_month year month + day.

(** [_ord2ymd]: year, month and day of an ordinal. *)
Definition ord2ymd (n : datetime) : Z * Z * Z :=
  let n := n - 1 in
  let n400 := n / DI400Y in
  let n := n mod DI400Y in
  let year := n400 * 400 + 1 in
  let n100 := n / DI100Y in
  let n := n mod DI100Y in
  let n4 := n / DI4Y in
  let n := n mod DI4Y in
  let n1 := n / 365 in
  let n := n mod 365 in
  let year := year + (n100 * 100 + n4 * 4 + n1) in
  if (n1 =? 4) || (n100 =? 4) then (year - 1, 12, 31)
  else
    let leapyear := (n1 =? 3) && (negb (n4 =? 24) || (n100 =? 3)) in
    let month := Z.shiftr (n + 50) 5 in
    let preceding :=
      DAYS_BEFORE_MONTH month + (if (month >? 2) && leapyear then 1 else 0) in
    if preceding >? n then
      let month := month - 1 in
      let preceding :=
        preceding
        - (DAYS_IN_MONTH month + (if (month =? 2) && leapyear then 1 else 0)) in
      (year, month, n - preceding + 1)
    else (year, month, n - preceding + 1).

Definition dt_year (d : datetime) : Z := fst (fst (ord2ymd d)).
Definition dt_month (d : datetime) : Z := snd (fst (ord2ymd d)).
Definition dt_day (d : datetime) : Z := snd (ord2ymd d).

(** [datetime.weekday()]: Monday is 0 and Sunday is 6. *)
Definition weekday (d : datetime) : Z := (d + 6) mod 7.

(** The dates a [datetime] can hold: 0001-01-01 to 9999-12-31. *)
Definition representable (d : datetime) : Prop := 1 <= d <= MAXORDINAL.

Definition representableb (d : datetime) : bool :=
  (1 <=? d) && (d <=? MAXORDINAL).

(** [dt + timedelta(days)]; raises [OverflowError] outside the range. *)
Definition add_days (dt : datetime) (days : Z) : result datetime :=
  let o := dt + days in
  if representableb o then Ok o else Raise OverflowError.

(** [datetime.timedelta(1)] *)
Definition ONE_DAY : Z := 1.

(** ** pandas.tseries.holiday: the observance helpers the calendar imports *)

(** If the holiday falls on Saturday, use the following Monday; on Sunday, use
    Monday. *)
Definition next_monday (dt : datetime) : result datetime :=
  if weekday dt =? 5 then add_days dt 2
  else if weekday dt =? 6 then add_days dt 1
  else Ok dt.

(** If the holiday falls on Saturday or Sunday, use the previous Friday. *)
Definition previous_friday (dt : datetime) : result datetime :=
  if weekday dt =? 5 then add_days dt (-1)
  else if weekday dt =? 6 then add_days dt (-2)
  else Ok dt.

(** If the holiday falls on Saturday, use the day before (Friday); on Sunday,
    the day after (Monday). *)
Definition nearest_workday (dt : datetime) : result datetime :=
  if weekday dt =? 5 then add_days dt (-1)
  else if weekday dt =? 6 then add_days dt 1
  else Ok dt.

(** ** exchange_calendar_xtai.py *)

(** Modelled from the spec: the weekday constants of [exchange_calendar.py],
    which is not among the sources.  The spec's weekend policy ("move Saturday
    back one day, Sunday forward one day") is the one [weekend_makeup] has
    when they number the days as [datetime.weekday()] does. *)
Definition MONDAY : Z := 0.
Definition TUESDAY : Z := 1.
Definition WEDNESDAY : Z := 2.
Definition THURSDAY : Z := 3.
Definition FRIDAY : Z := 4.
Definition SATURDAY : Z := 5.
Definition SUNDAY : Z := 6.

Definition check_after_2013 (dt : datetime) : bool :=
  dt_year dt >? 2013.

Definition check_between_2013_2024 (dt : datetime) : bool :=
  (2024 >? dt_year dt) && (dt_year dt >? 2013).

(** [index + ONE_DAY] and [index - ONE_DAY] on a DatetimeIndex: element-wise. *)
Definition index_add_days (holidays : list datetime) (days : Z)
  : result (list datetime) :=
  rmap (fun d => add_days d days) holidays.

Definition before_chinese_new_year_offset (holidays : list datetime)
  : result (list datetime) :=
  rmap (fun d => previous_friday d) holidays.

Definition chinese_new_year_offset (holidays : list datetime)
  : result (list datetime) :=
  rmap (fun d => next_monday d) holidays.

(** The body of the [for d in dt] loop of
    [evalute_tomb_sweeping_workday_extra]: [dts] is the list appended to. *)
Definition tomb_sweeping_step (dts : list datetime) (d : datetime)
  : list datetime :=
  if (dt_year d >? 2012) && (dt_month d =? 4) && (dt_day d =? 4) then
    if weekday (ymd2ord (dt_year d) 4 4) =? THURSDAY then
      dts ++ [ymd2ord (dt_year d) 4 5]
    else
      dts ++ [ymd2ord (dt_year d) 4 3]
  else dts.

Definition evalute_tomb_sweeping_workday_extra (dt : list datetime)
  : list datetime :=
  fold_left tomb_sweeping_step dt [].

Definition nearest_workday_2013_thr_2023 (dt : datetime) : result datetime :=
  if (2024 >? dt_year dt) && (dt_year dt >? 2013) then nearest_workday dt
  else Ok dt.

Definition manual_nearest_workday_2013_thr_2023 (holidays : list datetime)
  : result (list datetime) :=
  rmap (fun d => nearest_workday_2013_thr_2023 d) holidays.

Definition manual_extra_days_07_thr_2023 (holidays : list datetime)
  : result (list datetime) :=
  friday_extras <--
    rmap (fun d => add_days d ONE_DAY)
      (List.filter
         (fun d => (weekday d =? THURSDAY)
                   && ((2024 >? dt_year d) && (dt_year d >? 2006)))
         holidays) ;;
  monday_extras <--
    rmap (fun d => add_days d (- ONE_DAY))
      (List.filter
         (fun d => (weekday d =? TUESDAY)
                   && ((2024 >? dt_year d) && (dt_year d >? 2006)))
         holidays) ;;
  Ok (friday_extras ++ monday_extras).

Definition weekend_makeup (dt : datetime) : result datetime :=
  if dt_year dt <? 2014 then Ok dt
  else if weekday dt =? SUNDAY then add_days dt ONE_DAY
  else if weekday dt =? SATURDAY then add_days dt (- ONE_DAY)
  else Ok dt.

Definition holidays_weekend_makeup (holidays : list datetime)
  : result (list datetime) :=
  rmap weekend_makeup holidays.

Definition bridge_mon (dt : datetime) (checker : datetime -> bool)
  : result (option datetime) :=
  dt <-- add_days dt (- ONE_DAY) ;;
  Ok (if (weekday dt =? MONDAY) && checker dt then Some dt else None).

Definition bridge_fri (dt : datetime) (checker : datetime -> bool)
  : result (option datetime) :=
  dt <-- add_days dt ONE_DAY ;;
  Ok (if (weekday dt =? FRIDAY) && checker dt then Some dt else None).

(** [partial(bridge_mon, checker=check_between_2013_2024)] and its sibling. *)
Definition bridge_mon_2014_thr_2023 (dt : datetime) : result (option datetime) :=
  bridge_mon dt check_between_2013_2024.

Definition bridge_fri_2014_thr_2023 (dt : datetime) : result (option datetime) :=
  bridge_fri dt check_between_2013_2024.

(** [pd.to_datetime] on ISO [YYYY-MM-DD] strings. *)
Definition digit_of (c : ascii) : Z := Z.of_N (N_of_ascii c) - 48.

Fixpoint digits_of (s : string) (acc : Z) : Z :=
  match s with
  | EmptyString => acc
  | String c s' => digits_of s' (10 * acc + digit_of c)
  end.

Definition Timestamp_of_iso (s : string) : datetime :=
  ymd2ord (digits_of (String.substring 0 4 s) 0)
          (digits_of (String.substring 5 2 s) 0)
          (digits_of (String.substring 8 2 s) 0).

Definition to_datetime (l : list string) : list datetime :=
  List.map Timestamp_of_iso l.

(** [pandas.tseries.holiday.Holiday(name, month=, day=, start_date=,
    end_date=, observance=)].  An observance returns the observed date, or
    [None] for no date. *)
Record Holiday : Type := mkHoliday {
  hname : string;
  month : Z;
  day : Z;
  start_date : option datetime;
  end_date : option datetime;
  observance : datetime -> result (option datetime);
}.

(** An observance that always yields a date, such as [weekend_makeup]. *)
Definition always (f : datetime -> result datetime)
  : datetime -> result (option datetime) :=
  fun dt => d <-- f dt ;; Ok (Some d).

(** Modelled from the spec: [new_years_day] and [european_labour_day] of
    [common_holidays.py], which is not among the sources: the recurring
    holidays on January 1 and on May 1 with the observance given. *)
Definition new_years_day (obs : datetime -> result (option datetime)) : Holiday :=
  mkHoliday "New Year's Day" 1 1 None None obs.

Definition european_labour_day (obs : datetime -> result (option datetime))
  : Holiday :=
  mkHoliday "Labour Day" 5 1 None None obs.

Definition NewYearsDay : Holiday := new_years_day (always weekend_makeup).
Definition NewYearsDayExtraMon : Holiday :=
  new_years_day (fun dt => bridge_mon dt check_after_2013).
Definition NewYearsDayExtraFri : Holiday :=
  new_years_day (fun dt => bridge_fri dt check_after_2013).

Definition PeaceMemorialDay : Holiday :=
  mkHoliday "Peace Memorial Day" 2 28 None None (always weekend_makeup).
Definition PeaceMemorialDayExtraMon : Holiday :=
  mkHoliday "Peace Memorial Day extra Monday" 2 28 None None
            bridge_mon_2014_thr_2023.
Definition PeaceMemorialDayExtraFri : Holiday :=
  mkHoliday "Peace Memorial Day extra Friday" 2 28 None None
            bridge_fri_2014_thr_2023.

Definition WomenAndChildrensDay : Holiday :=
  mkHoliday "Women and Children's Day" 4 4
            (Some (Timestamp_of_iso "2011-01-01")) None (always weekend_makeup).
Definition WomenAndChildrensDayExtraMon : Holiday :=
  mkHoliday "Women and Children's Day extra Monday" 4 4
            (Some (Timestamp_of_iso "2011-01-01")) None bridge_mon_2014_thr_2023.
Definition WomenAndChildrensDayExtraFri : Holiday :=
  mkHoliday "Women and Children's Day extra Friday" 4 4
            (Some (Timestamp_of_iso "2011-01-01")) None bridge_fri_2014_thr_2023.

Definition LabourDay : Holiday :=
  european_labour_day (always nearest_workday_2013_thr_2023).

Definition NationalDay : Holiday :=
  mkHoliday "National Day of the Republic of China" 10 10 None None
            (always weekend_makeup).
Definition NationalDayExtraMon : Holiday :=
  mkHoliday "National Day of the Republic of China extra Monday" 10 10 None None
            bridge_mon_2014_thr_2023.
Definition NationalDayExtraFri : Holiday :=
  mkHoliday "National Day of the Republic of China extra Friday" 10 10 None None
            bridge_fri_2014_thr_2023.

(** The lunisolar tables of [lunisolar_holidays.py] are configuration data
    that is not among the sources; the calendar is defined over any tables. *)
Record LunisolarTables : Type := mkTables {
  chinese_lunar_new_year_dates : list datetime;
  dragon_boat_festival_dates : list datetime;
  mid_autumn_festival_dates : list datetime;
  qingming_festival_dates : list datetime;
}.

Definition chinese_new_year (T : LunisolarTables) : result (list datetime) :=
  chinese_new_year_offset (chinese_lunar_new_year_dates T).

Definition chinese_new_years_eve (T : LunisolarTables) : result (list datetime) :=
  cny <-- chinese_new_year T ;;
  shifted <-- index_add_days cny (- ONE_DAY) ;;
  before_chinese_new_year_offset shifted.

Definition chinese_new_years_eve_2 (T : LunisolarTables)
  : result (list datetime) :=
  eve <-- chinese_new_years_eve T ;;
  shifted <-- index_add_days eve (- ONE_DAY) ;;
  before_chinese_new_year_offset shifted.

Definition chinese_new_year_2 (T : LunisolarTables) : result (list datetime) :=
  cny <-- chinese_new_year T ;;
  shifted <-- index_add_days cny ONE_DAY ;;
  chinese_new_year_offset shifted.

Definition chinese_new_year_3 (T : LunisolarTables) : result (list datetime) :=
  cny2 <-- chinese_new_year_2 T ;;
  shifted <-- index_add_days cny2 ONE_DAY ;;
  chinese_new_year_offset shifted.

Definition tomb_sweeping_day (T : LunisolarTables) : result (list datetime) :=
  manual_nearest_workday_2013_thr_2023 (qingming_festival_dates T).

Definition tomb_sweeping_day_workday_extras (T : LunisolarTables)
  : list datetime :=
  evalute_tomb_sweeping_workday_extra (qingming_festival_dates T).

Definition tomb_sweeping_day_weekend_extras (T : LunisolarTables)
  : result (list datetime) :=
  holidays_weekend_makeup (qingming_festival_dates T).

Definition dragon_boat_festival (T : LunisolarTables) : result (list datetime) :=
  manual_nearest_workday_2013_thr_2023 (dragon_boat_festival_dates T).

Definition dragon_boat_festival_workday_extras (T : LunisolarTables)
  : result (list datetime) :=
  dbf <-- dragon_boat_festival T ;; manual_extra_days_07_thr_2023 dbf.

Definition dragon_boat_festival_weekend_extras (T : LunisolarTables)
  : result (list datetime) :=
  holidays_weekend_makeup (dragon_boat_festival_dates T).

Definition mid_autumn_festival (T : LunisolarTables) : result (list datetime) :=
  manual_nearest_workday_2013_thr_2023 (mid_autumn_festival_dates T).

Definition mid_autumn_festival_workday_extras (T : LunisolarTables)
  : result (list datetime) :=
  maf <-- mid_autumn_festival T ;; manual_extra_days_07_thr_2023 maf.

Definition mid_autumn_festival_weekend_extras (T : LunisolarTables)
  : result (list datetime) :=
  holidays_weekend_makeup (mid_autumn_festival_dates T).

Definition chinese_new_year_extras : list datetime :=
  to_datetime
    [ "2002-02-07"; "2002-02-15"; "2003-01-29"; "2004-01-19"; "2005-02-04";
      "2006-02-02"; "2007-02-22"; "2007-02-23"; "2008-02-04"; "2009-01-29";
      "2009-01-30"; "2010-02-18"; "2010-02-19"; "2011-01-31"; "2012-01-26";
      "2012-01-27"; "2013-02-14"; "2013-02-15"; "2014-01-28"; "2015-02-16";
      "2016-02-11"; "2016-02-12"; "2017-01-25"; "2018-02-13"; "2019-01-31";
      "2019-02-08"; "2020-01-21"; "2020-01-22"; "2021-02-08"; "2021-02-09";
      "2022-01-27"; "2023-01-26"; "2023-01-27" ]%string.

(** Some abnormal observances of regularly observed holidays. *)
Definition extra_holidays : list datetime :=
  to_datetime
    [ "2021-04-02";  (* Women And Childrens Day *)
      "2020-04-02";  (* Tomb Sweeping Day *)
      "2016-04-05";  (* Tomb Sweeping Day *)
      "2012-12-31";  (* New Year's Eve *)
      "2012-02-27";  (* Peace Memorial Day *)
      "2009-01-02";  (* New Year's Day *)
      "2006-10-09";  (* National Day *)
      "2005-09-01";  (* Bank Holiday *)
      "2018-04-06";  (* Tomb Sweeping Day *)
      "2007-04-06"   (* Tomb Sweeping Day *) ]%string.

Definition typhoons : list datetime :=
  to_datetime
    [ "2024-10-03"; "2024-10-02"; "2024-07-25"; "2024-07-24"; "2019-09-30";
      "2019-08-09"; "2016-09-28"; "2016-09-27"; "2016-07-08"; "2015-09-29";
      "2015-07-10"; "2014-07-23"; "2013-08-21"; "2012-08-02"; "2009-08-07";
      "2008-09-29"; "2008-07-28"; "2007-09-18"; "2005-08-05"; "2005-07-18";
      "2004-10-25"; "2004-08-25"; "2004-08-24"; "2002-09-06" ]%string.

(** [XTAIExchangeCalendar.regular_holidays] *)
Definition XTAI_regular_holidays : list Holiday :=
  [ NewYearsDay; NewYearsDayExtraMon; NewYearsDayExtraFri;
    PeaceMemorialDay; PeaceMemorialDayExtraMon; PeaceMemorialDayExtraFri;
    WomenAndChildrensDay; WomenAndChildrensDayExtraMon;
    WomenAndChildrensDayExtraFri;
    LabourDay;
    NationalDay; NationalDayExtraMon; NationalDayExtraFri ].

(** [itertools.chain] over indexes, any of which may have failed to build. *)
Fixpoint chain (parts : list (result (list datetime))) : result (list datetime) :=
  match parts with
  | [] => Ok []
  | p :: parts' => l <-- p ;; rest <-- chain parts' ;; Ok (l ++ rest)
  end.

(** [XTAIExchangeCalendar.adhoc_holidays] *)
Definition XTAI_adhoc_holidays (T : LunisolarTables) : result (list datetime) :=
  chain
    [ Ok extra_holidays;
      Ok typhoons;
      chinese_new_years_eve T;
      chinese_new_years_eve_2 T;
      chinese_new_year T;
      chinese_new_year_2 T;
      chinese_new_year_3 T;
      Ok chinese_new_year_extras;
      tomb_sweeping_day T;
      Ok (tomb_sweeping_day_workday_extras T);
      tomb_sweeping_day_weekend_extras T;
      dragon_boat_festival T;
      dragon_boat_festival_workday_extras T;
      dragon_boat_festival_weekend_extras T;
      mid_autumn_festival T;
      mid_autumn_festival_workday_extras T;
      mid_autumn_festival_weekend_extras T ].

(** ** Timestamps, time zones and times of day *)

(** A pandas [Timestamp]: nanoseconds since the Unix epoch, held in an int64
    whose least value is reserved for [NaT]. *)
Definition Timestamp := Z.

Definition Timestamp_min : Timestamp := - (2 ^ 63 - 1).
Definition Timestamp_max : Timestamp := 2 ^ 63 - 1.

Definition in_bounds (t : Z) : bool :=
  (Timestamp_min <=? t) && (t <=? Timestamp_max).

(** [Timestamp + Timedelta]; raises outside the int64 range. *)
Definition Timestamp_add (t : Timestamp) (td : Z) : result Timestamp :=
  let v := t + td in
  if in_bounds v then Ok v else Raise OutOfBoundsDatetime.

(** [Timedelta(hours=h)] in nanoseconds: [int(h * 3600 * 1_000_000_000)].
    The argument may be a Python float; the floats used here (12.5) and all
    the products formed from them are integers or halves well below 2^53, so
    the float arithmetic is exact and a rational stands for the float. *)
Definition Timedelta_hours (h : Q) : Z :=
  let ns := (h * inject_Z 3600 * inject_Z 1000000000)%Q in
  Z.quot (Qnum ns) (Zpos (Qden ns)).

Definition NANOS_IN_MINUTE : Z := 60000000000.
Definition MINUTES_IN_DAY : Z := 1440.
Definition EPOCH_ORDINAL : Z := 719163.   (* date(1970, 1, 1).toordinal() *)

(** [datetime.time(hour, minute)], as minutes after midnight. *)
Definition time (hour minute : Z) : Z := hour * 60 + minute.

(** A time zone is the trusted external function that gives the UTC offset, in
    minutes, in force at a local wall-clock minute. *)
Record tzinfo : Type := mkTz {
  utcoffset : Z -> Z;
}.

(** The instant at which the wall clock of [tz] shows time of day [t] on
    date [d]. *)
Definition localize (tz : tzinfo) (d : datetime) (t : Z) : Timestamp :=
  let wall := (d - EPOCH_ORDINAL) * MINUTES_IN_DAY + t in
  (wall - utcoffset tz wall) * NANOS_IN_MINUTE.

(** ** Holiday rules, calendar configurations and the session index *)

(** Modelled from the spec: the Holiday Rule variant of section 3; the
    classes that hold the rules ([HolidayCalendar], [ExchangeCalendar]) are in
    [exchange_calendar.py], which is not among the sources. *)
Inductive HolidayRule : Type :=
| Recurring (h : Holiday)
| AdHoc (dates : list datetime).

(** Modelled from the spec: the Calendar Configuration of section 3 (weekly
    trading-day pattern, holiday rules, open/close schedule with sub-ranges,
    session day-offset, special-hours overrides), with the attribute names
    the calendar classes use.  [weekmask] tells which weekdays trade. *)
Record CalendarConfiguration : Type := mkConfig {
  name : string;
  tz : tzinfo;
  weekmask : Z -> bool;
  open_times : list (option datetime * Z);
  close_times : list (option datetime * Z);
  open_offset : Z;
  regular_holidays : list HolidayRule;
  adhoc_holidays : list datetime;
  special_opens : list (datetime * Z);
  special_closes : list (datetime * Z);
}.

(** Modelled from the spec: a Session (section 3). *)
Record Session : Type := mkSession {
  date : datetime;
  open_instant : Timestamp;
  close_instant : Timestamp;
  is_special : bool;
}.

Definition in_range (start end_ d : datetime) : bool :=
  (start <=? d) && (d <=? end_).

Definition within_validity (h : Holiday) (d : datetime) : bool :=
  match start_date h with Some s => s <=? d | None => true end
  && match end_date h with Some e => d <=? e | None => true end.

(** Modelled from the spec: section 4.2, the anchors of a recurring rule:
    its month and day in every year of the range, kept when they lie in the
    range and within the rule's validity bounds. *)
Definition anchor_dates (h : Holiday) (start end_ : datetime) : list datetime :=
  List.filter
    (fun a => in_range start end_ a && within_validity h a)
    (List.map (fun y => ymd2ord y (month h) (day h))
              (seqZ (dt_year start) (dt_year end_ - dt_year start + 1))).

(** Modelled from the spec: section 4.2, [evaluate(rule, date_range)]: apply
    the observance to each anchor and collect every date produced; an ad-hoc
    rule gives its literal dates within the range. *)
Definition evaluate (r : HolidayRule) (start end_ : datetime)
  : result (gset Z) :=
  match r with
  | Recurring h =>
      produced <-- rmap (observance h) (anchor_dates h start end_) ;;
      Ok (list_to_set (omap id produced))
  | AdHoc dates => Ok (list_to_set (List.filter (in_range start end_) dates))
  end.

(** Modelled from the spec: section 4.2, the calendar's total holiday set is
    the union over all configured rules. *)
Definition holiday_set (rules : list HolidayRule) (start end_ : datetime)
  : result (gset Z) :=
  sets <-- rmap (fun r => evaluate r start end_) rules ;;
  Ok (⋃ sets).

(** The time of day in force on [d]: the last sub-range that has started. *)
Definition time_for (times : list (option datetime * Z)) (d : datetime)
  : option Z :=
  fold_left
    (fun acc (entry : option datetime * Z) =>
       match fst entry with
       | None => Some (snd entry)
       | Some from => if from <=? d then Some (snd entry) else acc
       end)
    times None.

(** Modelled from the spec: section 4.3 step 4. *)
Definition session_of (cfg : CalendarConfiguration) (d : datetime)
  : result Session :=
  match time_for (open_times cfg) d, time_for (close_times cfg) d with
  | Some o, Some c =>
      Ok (mkSession d
            (localize (tz cfg) (d + open_offset cfg) o)
            (localize (tz cfg) d c)
            false)
  | _, _ => Raise ConstructionError
  end.

Definition is_session_date (sessions : list Session) (d : datetime) : bool :=
  existsb (fun s => date s =? d) sessions.

(** Modelled from the spec: section 4.3 step 5, one override.  [set] puts the
    overriding instant into the session.  An override on a date that is no
    session is an error. *)
Definition apply_override (tz_ : tzinfo) (set : Session -> Timestamp -> Session)
  (sessions : list Session) (ov : datetime * Z) : result (list Session) :=
  if is_session_date sessions (fst ov) then
    Ok (List.map
          (fun s => if date s =? fst ov
                    then set s (localize tz_ (fst ov) (snd ov)) else s)
          sessions)
  else Raise ConstructionError.

Fixpoint apply_overrides (tz_ : tzinfo) (set : Session -> Timestamp -> Session)
  (sessions : list Session) (ovs : list (datetime * Z)) : result (list Session) :=
  match ovs with
  | [] => Ok sessions
  | ov :: ovs' =>
      sessions' <-- apply_override tz_ set sessions ov ;;
      apply_overrides tz_ set sessions' ovs'
  end.

Definition set_open (s : Session) (t : Timestamp) : Session :=
  mkSession (date s) t (close_instant s) true.

Definition set_close (s : Session) (t : Timestamp) : Session :=
  mkSession (date s) (open_instant s) t true.

Fixpoint strictly_increasing (l : list Z) : bool :=
  match l with
  | [] => true
  | x :: l' =>
      match l' with
      | [] => true
      | y :: _ => (x <? y) && strictly_increasing l'
      end
  end.

(** Modelled from the spec: section 4.3 step 6, the invariants of section 3
    that construction asserts. *)
Definition index_invariants (sessions : list Session) : bool :=
  forallb (fun s => open_instant s <? close_instant s) sessions
  && strictly_increasing (List.map date sessions).

(** Modelled from the spec: section 4.3, [build(config, start, end)]; the
    Schedule Builder is in [exchange_calendar.py], which is not among the
    sources. *)
Definition build (cfg : CalendarConfiguration) (start end_ : datetime)
  : result (list Session) :=
  holidays <--
    holiday_set (regular_holidays cfg ++ [AdHoc (adhoc_holidays cfg)])
                start end_ ;;
  let days := seqZ start (end_ - start + 1) in
  let trading := List.filter (fun d => weekmask cfg (weekday d)) days in
  let kept := List.filter (fun d => negb (bool_decide (d ∈ holidays))) trading in
  sessions <-- rmap (session_of cfg) kept ;;
  sessions <--
    apply_overrides (tz cfg) set_open sessions
      (List.filter (fun ov => in_range start end_ (fst ov)) (special_opens cfg)) ;;
  sessions <--
    apply_overrides (tz cfg) set_close sessions
      (List.filter (fun ov => in_range start end_ (fst ov)) (special_closes cfg)) ;;
  if index_invariants sessions then Ok sessions else Raise ConstructionError.

(** ** us_futures_calendar.py *)

(** Number of hours of offset between the open and close times dictated by
    the calendar and the 6:31am to 5:00pm times over which futures algos are
    simulated. *)
Definition FUTURES_OPEN_TIME_OFFSET : Q := 25 # 2.   (* 12.5 *)
Definition FUTURES_CLOSE_TIME_OFFSET : Q := inject_Z (-1).

(** [QuantopianUSFuturesCalendar].  The zone rules of America/New_York, the
    weekly pattern of the base class and the three holiday rules imported from
    [us_holidays] and pandas are not among the sources and are taken as given. *)
Definition QuantopianUSFuturesCalendar
  (America_New_York : tzinfo) (base_weekmask : Z -> bool)
  (USNewYearsDay GoodFriday Christmas : HolidayRule) : CalendarConfiguration :=
  {| name := "us_futures";
     tz := America_New_York;
     weekmask := base_weekmask;
     open_times := [(None, time 18 1)];
     close_times := [(None, time 18 0)];
     open_offset := -1;
     regular_holidays := [USNewYearsDay; GoodFriday; Christmas];
     adhoc_holidays := [];
     special_opens := [];
     special_closes := [] |}.

Definition execution_time_from_open (open_dates : Timestamp) : result Timestamp :=
  Timestamp_add open_dates (Timedelta_hours FUTURES_OPEN_TIME_OFFSET).

Definition execution_time_from_close (close_dates : Timestamp)
  : result Timestamp :=
  Timestamp_add close_dates (Timedelta_hours FUTURES_CLOSE_TIME_OFFSET).

(** [XTAIExchangeCalendar]: open 9:00, close 13:30, Asia/Taipei.  Building
    the configuration evaluates the module-level holiday indexes. *)
Definition XTAIExchangeCalendar
  (Asia_Taipei : tzinfo) (base_weekmask : Z -> bool) (T : LunisolarTables)
  : result CalendarConfiguration :=
  adhoc <-- XTAI_adhoc_holidays T ;;
  Ok {| name := "XTAI";
        tz := Asia_Taipei;
        weekmask := base_weekmask;
        open_times := [(None, time 9 0)];
        close_times := [(None, time 13 30)];
        open_offset := 0;
        regular_holidays := List.map Recurring XTAI_regular_holidays;
        adhoc_holidays := adhoc;
        special_opens := [];
        special_closes := [] |}.

(** ** errors.py *)

(** What [NotSessionError] reads of a calendar. *)
Record ExchangeCalendar : Type := mkCalendar {
  calendar_name : string;
  first_session : Timestamp;
  last_session : Timestamp;
}.

Record NotSessionError : Type := mkNotSessionError {
  calendar : ExchangeCalendar;
  ts : Timestamp;
  param_name : option string;
}.

(** [NotSessionError.__str__].  [str_ts] is pandas' rendering of a Timestamp
    in an f-string. *)
Definition NotSessionError_str (str_ts : Timestamp -> string)
  (self : NotSessionError) : string :=
  let msg :=
    match param_name self with
    | Some p =>
        ("Parameter `" ++ p ++ "` takes a session label"
         ++ " although received input that parsed to '" ++ str_ts (ts self)
         ++ "' which")%string
    | None => ("'" ++ str_ts (ts self) ++ "'")%string
    end in
  if ts self <? first_session (calendar self) then
    (msg ++ " is earlier than the first session of calendar"
         ++ " '" ++ calendar_name (calendar self) ++ "' ('"
         ++ str_ts (first_session (calendar self)) ++ "').")%string
  else if ts self >? last_session (calendar self) then
    (msg ++ " is later than the last session of calendar"
         ++ " '" ++ calendar_name (calendar self) ++ "' ('"
         ++ str_ts (last_session (calendar self)) ++ "').")%string
  else
    (msg ++ " is not a session of calendar '"
         ++ calendar_name (calendar self) ++ "'.")%string.

(** The three cases the spec asks the message to tell apart. *)
Inductive NotSessionCase : Set :=
| EarlierThanFirst
| LaterThanLast
| NotASession.

(** The words of the spec: earlier than first session, else later than last
    session, else simply not a session. *)
Definition spec_case (cal : ExchangeCalendar) (t : Timestamp) : NotSessionCase :=
  if t <? first_session cal then EarlierThanFirst
  else if t >? last_session cal then LaterThanLast
  else NotASession.

(** What the message says in each case. *)
Definition case_phrase (str_ts : Timestamp -> string) (cal : ExchangeCalendar)
  (c : NotSessionCase) : string :=
  match c with
  | EarlierThanFirst =>
      (" is earlier than the first session of calendar '" ++ calendar_name cal
       ++ "' ('" ++ str_ts (first_session cal) ++ "').")%string
  | LaterThanLast =>
      (" is later than the last session of calendar '" ++ calendar_name cal
       ++ "' ('" ++ str_ts (last_session cal) ++ "').")%string
  | NotASession =>
      (" is not a session of calendar '" ++ calendar_name cal ++ "'.")%string
  end.

(** [needle in haystack] *)
Definition contains (needle haystack : string) : Prop :=
  exists before after : string,
    haystack = (before ++ needle ++ after)%string.

(** [str.format] with keyword arguments, for templates whose replacement fields are plain
    keyword names, as every [msg] of [errors.py] is.  [field] is [None]
    outside a replacement field and holds the name read so far, reversed,
    inside one. *)
Fixpoint format_from (tpl : string) (field : option string)
  (kwargs : gmap string string) : result string :=
  match tpl, field with
  | EmptyString, None => Ok EmptyString
  | EmptyString, Some _ => Raise ValueError
  | String "{" tpl', None => format_from tpl' (Some EmptyString) kwargs
  | String "{" _, Some _ => Raise ValueError
  | String "}" _, None => Raise ValueError
  | String "}" tpl', Some key =>
      match kwargs !! key with
      | Some v => rest <-- format_from tpl' None kwargs ;; Ok (v ++ rest)%string
      | None => Raise KeyError
      end
  | String c tpl', None =>
      rest <-- format_from tpl' None kwargs ;; Ok (String c rest)
  | String c tpl', Some key =>
      format_from tpl' (Some (key ++ String c EmptyString)%string) kwargs
  end.

Definition format (tpl : string) (kwargs : gmap string string) : result string :=
  format_from tpl None kwargs.

(** A [CalendarError] instance: the [msg] template of its class ([None] on
    the base class itself) and the keyword dictionary [__init__] stored. *)
Record CalendarError : Type := mkCalendarError {
  msg : option string;
  kwargs : gmap string string;
}.

(** The [msg] class attributes. *)
Definition InvalidCalendarName_msg : string :=
  "The requested ExchangeCalendar, {calendar_name}, does not exist.".
Definition CalendarNameCollision_msg : string :=
  "A calendar with the name {calendar_name} is already registered.".
Definition CyclicCalendarAlias_msg : string :=
  "Cycle in calendar aliases: [{cycle}]".
Definition ScheduleFunctionWithoutCalendar_msg : string :=
  ("To use schedule_function, the TradingAlgorithm must be running on an "
   ++ "ExchangeTradingSchedule, rather than {schedule}.")%string.
Definition ScheduleFunctionInvalidCalendar_msg : string :=
  ("Invalid calendar '{given_calendar}' passed to schedule_function. "
   ++ "Allowed options are {allowed_calendars}.")%string.

(** The objects alive, by identity, and the cache of the [message]
    descriptor, which is shared by all instances and keyed by instance. *)
Record Heap : Type := mkHeap {
  objects : gmap nat CalendarError;
  message_cache : gmap nat string;
  next_id : nat;
}.

Definition empty_heap : Heap := mkHeap ∅ ∅ 0.

(** Instantiating an error class with keywords: [__init__] stores the keywords and nothing else. *)
Definition CalendarError_init (cls_msg : option string)
  (kw : gmap string string) (h : Heap) : nat * Heap :=
  (next_id h,
   mkHeap (<[next_id h := mkCalendarError cls_msg kw]> (objects h))
          (message_cache h)
          (S (next_id h))).

(** [CalendarError.__str__] *)
Definition CalendarError_str (self : nat) (h : Heap) : result string :=
  match objects h !! self with
  | Some e =>
      match msg e with
      | Some m => format m (kwargs e)
      | None => Raise AttributeError
      end
  | None => Raise AttributeError
  end.

(** Modelled from the spec: the [lazyval] descriptor of [utils/memoize.py],
    which is not among the sources: the value is computed on demand, on the
    first access, and the cached value is returned from then on. *)
Definition lazyval (func : nat -> Heap -> result string) (self : nat) (h : Heap)
  : result string * Heap :=
  match message_cache h !! self with
  | Some v => (Ok v, h)
  | None =>
      match func self h with
      | Ok v =>
          (Ok v, mkHeap (objects h) (<[self := v]> (message_cache h)) (next_id h))
      | Raise e => (Raise e, h)
      end
  end.

(** [CalendarError.message] *)
Definition message (self : nat) (h : Heap) : result string * Heap :=
  lazyval CalendarError_str self h.

(** What a program can do with error values: create one, read [message],
    call [str], and assign into the [kwargs] dictionary of one. *)
Inductive action : Type :=
| New (cls_msg : option string) (kw : gmap string string)
| GetMessage (self : nat)
| Str (self : nat)
| SetKwarg (self : nat) (key value : string).

Definition step (a : action) (h : Heap) : Heap :=
  match a with
  | New cls_msg kw => snd (CalendarError_init cls_msg kw h)
  | GetMessage self => snd (message self h)
  | Str self => h
  | SetKwarg self key value =>
      match objects h !! self with
      | Some e =>
          mkHeap (<[self := mkCalendarError (msg e) (<[key := value]> (kwargs e))]>
                    (objects h))
                 (message_cache h) (next_id h)
      | None => h
      end
  end.

Definition run (actions : list action) (h : Heap) : Heap :=
  fold_left (fun h a => step a h) actions h.

(** Identities not yet handed out have no object and no cached message. *)
Definition heap_wf (h : Heap) : Prop :=
  forall i : nat, (next_id h <= i)%nat ->
    objects h !! i = None /\ message_cache h !! i = None.

(** ** Auxiliary definitions for the proofs *)

(** The tail of [ord2ymd]: month and day from the leap flag and the number of
    days into the year. *)
Definition month_day (leapyear : bool) (n : Z) : Z * Z :=
  let month := Z.shiftr (n + 50) 5 in
  let preceding :=
    DAYS_BEFORE_MONTH month + (if (month >? 2) && leapyear then 1 else 0) in
  if preceding >? n then
    let month := month - 1 in
    let preceding :=
      preceding
      - (DAYS_IN_MONTH month + (if (month =? 2) && leapyear then 1 else 0)) in
    (month, n - preceding + 1)
  else (month, n - preceding + 1).

(** [f] holds on the [n] integers from [i] on. *)
Fixpoint all_from (f : Z -> bool) (i : Z) (n : nat) : bool :=
  match n with
  | O => true
  | S k => f i && all_from f (i + 1) k
  end.

(** [month_day] is right on day [r] of a year. *)
Definition month_day_ok (leapyear : bool) (r : Z) : bool :=
  let m := fst (month_day leapyear r) in
  let d := snd (month_day leapyear r) in
  (1 <=? m) && (m <=? 12) && (1 <=? d)
  && (d <=? (if (m =? 2) && leapyear then 29 else DAYS_IN_MONTH m))
  && (DAYS_BEFORE_MONTH m + (if (m >? 2) && leapyear then 1 else 0) + d =? r + 1).

(** The words of the spec for [evalute_tomb_sweeping_workday_extra]: what one
    festival date contributes. *)
Definition on_april_4_after_2012 (d : datetime) : bool :=
  (dt_year d >? 2012) && (dt_month d =? 4) && (dt_day d =? 4).

Definition tomb_sweeping_extra (d : datetime) : list datetime :=
  if on_april_4_after_2012 d then
    [ if weekday (ymd2ord (dt_year d) 4 4) =? THURSDAY
      then ymd2ord (dt_year d) 4 5
      else ymd2ord (dt_year d) 4 3 ]
  else [].

Definition NANOS_IN_HOUR : Z := 60 * NANOS_IN_MINUTE.

(** How the message of [NotSessionError] starts: with the parameter named
    when one is given, with the quoted timestamp alone otherwise. *)
Definition message_head (str_ts : Timestamp -> string) (t : Timestamp)
  (p : option string) : string :=
  match p with
  | Some n =>
      ("Parameter `" ++ n ++ "` takes a session label although received input"
       ++ " that parsed to '" ++ str_ts t ++ "' which")%string
  | None => ("'" ++ str_ts t ++ "'")%string
  end.

(** The words of the spec for a lunar-offset stage: shift the anchor by a
    fixed number of days, then move to the nearest workday. *)
Definition lunar_offset_stage (delta : Z) (anchors : list datetime)
  : result (list datetime) :=
  rmap (fun a => shifted <-- add_days a delta ;; nearest_workday shifted) anchors.

(** Where [next_monday] and [previous_friday] send a date. *)
Definition roll_forward (d : datetime) : datetime :=
  d + (if weekday d =? SATURDAY then 2 else if weekday d =? SUNDAY then 1 else 0).

Definition roll_back (d : datetime) : datetime :=
  d - (if weekday d =? SATURDAY then 1 else if weekday d =? SUNDAY then 2 else 0).

(** A date with a week and a day of dates on either side of it. *)
Definition well_inside (a : datetime) : Prop := 8 < a < MAXORDINAL - 8.

(** The base rules of the XTAI calendar that have bridging rules, each paired
    with one of its bridging rules. *)
Definition XTAI_bridged_rules : list (Holiday * Holiday) :=
  [ (NewYearsDay, NewYearsDayExtraMon);
    (NewYearsDay, NewYearsDayExtraFri);
    (PeaceMemorialDay, PeaceMemorialDayExtraMon);
    (PeaceMemorialDay, PeaceMemorialDayExtraFri);
    (WomenAndChildrensDay, WomenAndChildrensDayExtraMon);
    (WomenAndChildrensDay, WomenAndChildrensDayExtraFri);
    (NationalDay, NationalDayExtraMon);
    (NationalDay, NationalDayExtraFri) ].

(** US Eastern time in 2021, for the examples: UTC-4 from 2021-03-14 03:00
    to 2021-11-07 01:00 on the wall clock, UTC-5 otherwise. *)
Definition eastern_2021 : tzinfo :=
  mkTz (fun wall =>
          if ((ymd2ord 2021 3 14 - EPOCH_ORDINAL) * MINUTES_IN_DAY + 180 <=? wall)
             && (wall <? (ymd2ord 2021 11 7 - EPOCH_ORDINAL) * MINUTES_IN_DAY + 60)
          then -240 else -300).

(** [m] is the first Monday-to-Friday date on or after [a]. *)
Definition first_workday_from (a m : datetime) : Prop :=
  a <= m /\ weekday m < SATURDAY
  /\ forall z, a <= z < m -> SATURDAY <= weekday z.

(** [m] is the last Monday-to-Friday date on or before [a]. *)
Definition last_workday_until (a m : datetime) : Prop :=
  m <= a /\ weekday m < SATURDAY
  /\ forall z, m < z <= a -> SATURDAY <= weekday z.

(** The wall-clock minute, counted from the epoch, of time of day [t] on
    date [d]: what [localize] looks the offset up at. *)
Definition wall_minute (d : datetime) (t : Z) : Z :=
  (d - EPOCH_ORDINAL) * MINUTES_IN_DAY + t.

(** The dates the calendar lists literally. *)
Definition XTAI_literal_dates : list datetime :=
  extra_holidays ++ typhoons ++ chinese_new_year_extras.

(** The holidays on a date within the year that have bridging rules, each with
    its Monday and its Friday bridging rule. *)
Definition XTAI_dated_bridges : list (Holiday * Holiday * Holiday) :=
  [ (PeaceMemorialDay, PeaceMemorialDayExtraMon, PeaceMemorialDayExtraFri);
    (WomenAndChildrensDay, WomenAndChildrensDayExtraMon,
     WomenAndChildrensDayExtraFri);
    (NationalDay, NationalDayExtraMon, NationalDayExtraFri) ].

(** * Properties *)

(** ** The civil calendar *)

Lemma all_from_spec f n :
  forall i, all_from f i n = true ->
  forall j, i <= j < i + Z.of_nat n -> f j = true.
Proof.
  induction n as [|k IH]; intros i H j Hj; [lia|].
  simpl in H. apply andb_prop in H as [Hk Hrest].
  destruct (Z.eq_dec j i) as [->|Hne]; [exact Hk|].
  apply (IH (i + 1)); [exact Hrest | lia].
Qed.

Lemma ord2ymd_unfold n :
  ord2ymd n =
  let n0 := n - 1 in
  let n400 := n0 / DI400Y in
  let r400 := n0 mod DI400Y in
  let n100 := r400 / DI100Y in
  let r100 := r400 mod DI100Y in
  let n4 := r100 / DI4Y in
  let r4 := r100 mod DI4Y in
  let n1 := r4 / 365 in
  let r1 := r4 mod 365 in
  let year := n400 * 400 + 1 + (n100 * 100 + n4 * 4 + n1) in
  if (n1 =? 4) || (n100 =? 4) then (year - 1, 12, 31)
  else
    let leapyear := (n1 =? 3) && (negb (n4 =? 24) || (n100 =? 3)) in
    (year, fst (month_day leapyear r1), snd (month_day leapyear r1)).
Proof.
  unfold ord2ymd, month_day. cbv zeta.
  repeat match goal with
         | |- context [if ?b then _ else _] => destruct b
         end; reflexivity.
Qed.

(** The year of a date is the one whose days contain it. *)
Lemma year_bounds n :
  days_before_year (dt_year n) < n <= days_before_year (dt_year n + 1).
Proof.
  unfold dt_year. rewrite ord2ymd_unfold. cbv zeta.
  unfold days_before_year, DI400Y, DI100Y, DI4Y.
  destruct ((_ =? 4) || (_ =? 4)) eqn:E; cbn [fst snd].
  - apply orb_prop in E.
    destruct E as [E|E]; apply Z.eqb_eq in E; Z.div_mod_to_equations; lia.
  - apply orb_false_elim in E as [E1 E2]. apply Z.eqb_neq in E1, E2.
    Z.div_mod_to_equations; lia.
Qed.

Lemma days_before_year_mono y y' :
  y <= y' -> days_before_year y <= days_before_year y'.
Proof. unfold days_before_year. intros H. Z.div_mod_to_equations. lia. Qed.

Lemma days_in_year y :
  days_before_year (y + 1) - days_before_year y
  = 365 + (if is_leap y then 1 else 0).
Proof.
  unfold days_before_year, is_leap.
  destruct (y mod 4 =? 0) eqn:E4; destruct (y mod 100 =? 0) eqn:E100;
    destruct (y mod 400 =? 0) eqn:E400; cbn [andb orb negb];
    rewrite ?Z.eqb_eq, ?Z.eqb_neq in *; Z.div_mod_to_equations; lia.
Qed.

Lemma dt_year_unique n y :
  days_before_year y < n <= days_before_year (y + 1) -> dt_year n = y.
Proof.
  intros H. pose proof (year_bounds n) as B.
  destruct (Z.lt_trichotomy (dt_year n) y) as [Hlt|[Heq|Hgt]]; [|exact Heq|].
  - pose proof (days_before_year_mono (dt_year n + 1) y ltac:(lia)). lia.
  - pose proof (days_before_year_mono (y + 1) (dt_year n) ltac:(lia)). lia.
Qed.

Lemma dt_year_mono n n' : n <= n' -> dt_year n <= dt_year n'.
Proof.
  intros H. pose proof (year_bounds n) as B. pose proof (year_bounds n') as B'.
  destruct (Z_le_gt_dec (dt_year n) (dt_year n')) as [Hle|Hgt]; [exact Hle|].
  pose proof (days_before_year_mono (dt_year n' + 1) (dt_year n) ltac:(lia)).
  lia.
Qed.

Lemma month_day_checked (leapyear : bool) r :
  0 <= r < 365 + (if leapyear then 1 else 0) -> month_day_ok leapyear r = true.
Proof.
  intros H.
  assert (C : all_from (month_day_ok leapyear) 0 (if leapyear then 366 else 365)
              = true) by (destruct leapyear; vm_compute; reflexivity).
  apply (all_from_spec _ _ 0 C). destruct leapyear; lia.
Qed.

(** Year, month and day of a date give the date back, and are a month and a
    day of that month. *)
Lemma ymd2ord_ord2ymd n :
  ymd2ord (dt_year n) (dt_month n) (dt_day n) = n
  /\ 1 <= dt_month n <= 12
  /\ 1 <= dt_day n <= days_in_month (dt_year n) (dt_month n).
Proof.
  pose proof (year_bounds n) as B. pose proof (days_in_year (dt_year n)) as L.
  revert B L.
  unfold ymd2ord, days_before_month, days_in_month, dt_year, dt_month, dt_day.
  rewrite ord2ymd_unfold. cbv zeta.
  destruct ((_ =? 4) || (_ =? 4)) eqn:E; cbn [fst snd].
  - intros B L. change (12 =? 2) with false. change (12 >? 2) with true.
    cbn [DAYS_BEFORE_MONTH DAYS_IN_MONTH andb].
    assert (Hd : days_before_year
                   (((n - 1) / DI400Y * 400 + 1
                     + ((n - 1) mod DI400Y / DI100Y * 100
                        + (n - 1) mod DI400Y mod DI100Y / DI4Y * 4
                        + (n - 1) mod DI400Y mod DI100Y mod DI4Y / 365) - 1) + 1)
                 = n).
    { clear B L. unfold days_before_year, DI400Y, DI100Y, DI4Y in *.
      apply orb_prop in E.
      destruct E as [E|E]; apply Z.eqb_eq in E; Z.div_mod_to_equations; lia. }
    destruct (is_leap _); lia.
  - set (yr := (n - 1) / DI400Y * 400 + 1
               + ((n - 1) mod DI400Y / DI100Y * 100
                  + (n - 1) mod DI400Y mod DI100Y / DI4Y * 4
                  + (n - 1) mod DI400Y mod DI100Y mod DI4Y / 365)).
    set (r1 := (n - 1) mod DI400Y mod DI100Y mod DI4Y mod 365).
    set (lp := ((n - 1) mod DI400Y mod DI100Y mod DI4Y / 365 =? 3)
               && (negb ((n - 1) mod DI400Y mod DI100Y / DI4Y =? 24)
                   || ((n - 1) mod DI400Y / DI100Y =? 3))).
    intros B L.
    assert (Hr : n = days_before_year yr + r1 + 1 /\ 0 <= r1 < 365).
    { subst yr r1. clear B L lp.
      apply orb_false_elim in E as [E1 E2]. apply Z.eqb_neq in E1, E2.
      unfold days_before_year, DI400Y, DI100Y, DI4Y in *.
      Z.div_mod_to_equations. lia. }
    assert (Hl : lp = is_leap yr).
    { subst yr lp. clear B L Hr r1.
      apply orb_false_elim in E as [E1 E2]. apply Z.eqb_neq in E1, E2.
      unfold is_leap, DI400Y, DI100Y, DI4Y in *.
      repeat match goal with
             | |- context [?a =? ?b] =>
                 let H := fresh "Q" in destruct (Z.eqb_spec a b) as [H|H]
             end; cbn [andb orb negb]; try reflexivity; exfalso;
        Z.div_mod_to_equations; lia. }
    rewrite <- Hl in *.
    pose proof (month_day_checked lp r1 ltac:(destruct lp; lia)) as C.
    unfold month_day_ok in C. cbv zeta in C.
    rewrite !andb_true_iff, !Z.leb_le, Z.eqb_eq in C.
    lia.
Qed.

Lemma month_cases m :
  1 <= m <= 12 ->
  m = 1 \/ m = 2 \/ m = 3 \/ m = 4 \/ m = 5 \/ m = 6 \/
  m = 7 \/ m = 8 \/ m = 9 \/ m = 10 \/ m = 11 \/ m = 12.
Proof. lia. Qed.

Ltac each_month H :=
  apply month_cases in H;
  repeat (destruct H as [H|H]; [subst|]); [..|subst].

(** The ordinal of a year, month and day has that year, month and day. *)
Lemma ord2ymd_ymd2ord y m d :
  1 <= m <= 12 -> 1 <= d <= days_in_month y m ->
  ord2ymd (ymd2ord y m d) = (y, m, d).
Proof.
  intros Hm Hd.
  pose proof (days_in_year y) as L.
  assert (Hy : dt_year (ymd2ord y m d) = y).
  { apply dt_year_unique. revert Hd L.
    unfold ymd2ord, days_before_month, days_in_month.
    generalize (days_before_year y) (days_before_year (y + 1)). intros b b'.
    destruct (is_leap y); each_month Hm; cbn; lia. }
  destruct (ymd2ord_ord2ymd (ymd2ord y m d)) as (E & Hm' & Hd').
  rewrite Hy in E, Hd'.
  assert (dt_month (ymd2ord y m d) = m /\ dt_day (ymd2ord y m d) = d) as [Em Ed].
  { revert E Hd Hd'.
    generalize (dt_month (ymd2ord y m d)) (dt_day (ymd2ord y m d)) Hm'.
    intros m' d' Hm''.
    unfold ymd2ord, days_before_month, days_in_month.
    generalize (days_before_year y). intros b.
    destruct (is_leap y); each_month Hm; each_month Hm''; cbn; lia. }
  assert (S : ord2ymd (ymd2ord y m d)
              = (dt_year (ymd2ord y m d), dt_month (ymd2ord y m d),
                 dt_day (ymd2ord y m d))).
  { unfold dt_year, dt_month, dt_day.
    destruct (ord2ymd (ymd2ord y m d)) as [[y' m'] d']. reflexivity. }
  rewrite S, Hy, Em, Ed. reflexivity.
Qed.

(** The representable dates are those of the years [MINYEAR] to [MAXYEAR]. *)
Lemma representable_year n :
  representable n <-> MINYEAR <= dt_year n <= MAXYEAR.
Proof.
  pose proof (year_bounds n) as B.
  unfold representable, MINYEAR, MAXYEAR, MAXORDINAL.
  assert (D1 : days_before_year 1 = 0) by reflexivity.
  assert (D2 : days_before_year 10000 = 3652059) by reflexivity.
  split; intros H; split.
  - destruct (Z_le_gt_dec 1 (dt_year n)) as [?|G]; [assumption|].
    pose proof (days_before_year_mono (dt_year n + 1) 1 ltac:(lia)). lia.
  - destruct (Z_le_gt_dec (dt_year n) 9999) as [?|G]; [assumption|].
    pose proof (days_before_year_mono 10000 (dt_year n) ltac:(lia)). lia.
  - pose proof (days_before_year_mono 1 (dt_year n) ltac:(lia)). lia.
  - pose proof (days_before_year_mono (dt_year n + 1) 10000 ltac:(lia)). lia.
Qed.

Lemma representableb_true n : representable n -> representableb n = true.
Proof.
  unfold representable, representableb. intros H.
  apply andb_true_intro. split; apply Z.leb_le; lia.
Qed.

Lemma add_days_ok dt k :
  representable (dt + k) -> add_days dt k = Ok (dt + k).
Proof. intros H. unfold add_days. cbv zeta. now rewrite representableb_true. Qed.

Lemma add_days_inv dt k r : add_days dt k = Ok r -> r = dt + k /\ representable r.
Proof.
  unfold add_days, representableb, representable. cbv zeta.
  destruct (_ && _) eqn:E; [|discriminate]. intros [= <-].
  apply andb_prop in E as [E1 E2]. apply Z.leb_le in E1, E2. lia.
Qed.

(** ** The weekend make-up observance *)

Lemma sunday_has_a_tomorrow d :
  representable d -> weekday d = SUNDAY -> representable (d + 1).
Proof.
  unfold representable, weekday, SUNDAY, MAXORDINAL.
  intros H W. Z.div_mod_to_equations. lia.
Qed.

Lemma saturday_has_a_yesterday d :
  representable d -> weekday d = SATURDAY -> representable (d - 1).
Proof.
  unfold representable, weekday, SATURDAY, MAXORDINAL.
  intros H W. Z.div_mod_to_equations. lia.
Qed.

(** C4.  On every date [d] that a datetime can hold, [weekend_makeup] returns
    (it never raises) and its result is: [d] itself when the year of [d] is
    before 2014; otherwise the day after [d] when [d] is a Sunday, the day
    before [d] when [d] is a Saturday, and [d] itself on Monday to Friday. *)
Theorem weekend_makeup_spec (d : datetime) :
  representable d ->
  (dt_year d < 2014 -> weekend_makeup d = Ok d)
  /\ (2014 <= dt_year d ->
      (weekday d = SUNDAY -> weekend_makeup d = Ok (d + 1))
      /\ (weekday d = SATURDAY -> weekend_makeup d = Ok (d - 1))
      /\ (weekday d <> SUNDAY -> weekday d <> SATURDAY ->
          weekend_makeup d = Ok d)).
Proof.
  intros R. unfold weekend_makeup. split.
  - intros Y. apply Z.ltb_lt in Y. now rewrite Y.
  - intros Y. apply Z.ltb_ge in Y. rewrite Y. repeat split.
    + intros W. rewrite W. cbn [Z.eqb SUNDAY Pos.eqb].
      apply add_days_ok. now apply sunday_has_a_tomorrow.
    + intros W. rewrite W. cbn [Z.eqb SUNDAY SATURDAY Pos.eqb].
      apply (add_days_ok d (- ONE_DAY)). now apply saturday_has_a_yesterday.
    + intros W1 W2. apply Z.eqb_neq in W1, W2. now rewrite W1, W2.
Qed.

(** 2022-01-01 was a Saturday: the make-up day is 2021-12-31. *)
Lemma weekend_makeup_spec_witness :
  representable (ymd2ord 2022 1 1)
  /\ weekend_makeup (ymd2ord 2022 1 1) = Ok (ymd2ord 2021 12 31).
Proof.
  assert (R : representable (ymd2ord 2022 1 1)).
  { unfold representable. vm_compute. split; discriminate. }
  split; [exact R|].
  destruct (weekend_makeup_spec (ymd2ord 2022 1 1) R) as [_ H].
  destruct (H ltac:(vm_compute; discriminate)) as (_ & Hsat & _).
  exact (Hsat eq_refl).
Defined.

(** ** The bridging observances *)

(** C5.  For a holiday date [d] whose neighbours are dates, [bridge_mon]
    returns the day before [d] exactly when that day is a Monday and the
    guard holds of it, and no date otherwise; [bridge_fri] returns the day
    after [d] exactly when that day is a Friday and the guard holds of it,
    and no date otherwise. *)
Theorem bridge_spec (d : datetime) (checker : datetime -> bool) :
  representable (d - 1) -> representable (d + 1) ->
  (exists r, bridge_mon d checker = Ok r
     /\ (weekday (d - 1) = MONDAY /\ checker (d - 1) = true -> r = Some (d - 1))
     /\ (~ (weekday (d - 1) = MONDAY /\ checker (d - 1) = true) -> r = None))
  /\ (exists r, bridge_fri d checker = Ok r
     /\ (weekday (d + 1) = FRIDAY /\ checker (d + 1) = true -> r = Some (d + 1))
     /\ (~ (weekday (d + 1) = FRIDAY /\ checker (d + 1) = true) -> r = None)).
Proof.
  intros Rp Rn. unfold bridge_mon, bridge_fri.
  rewrite (add_days_ok d (- ONE_DAY)) by exact Rp.
  rewrite (add_days_ok d ONE_DAY) by exact Rn.
  change (d + - ONE_DAY) with (d - 1). change (d + ONE_DAY) with (d + 1).
  cbn [rbind]. split; eexists; (split; [reflexivity|]); split.
  - intros [W C]. rewrite W, C. reflexivity.
  - intros N. destruct (Z.eqb_spec (weekday (d - 1)) MONDAY) as [W|W];
      [|reflexivity].
    destruct (checker (d - 1)) eqn:C; [|reflexivity]. exfalso. now apply N.
  - intros [W C]. rewrite W, C. reflexivity.
  - intros N. destruct (Z.eqb_spec (weekday (d + 1)) FRIDAY) as [W|W];
      [|reflexivity].
    destruct (checker (d + 1)) eqn:C; [|reflexivity]. exfalso. now apply N.
Qed.

(** 2019-01-01 was a Tuesday: the Monday before it, 2018-12-31, is bridged
    under the guard "after 2013". *)
Lemma bridge_spec_witness :
  bridge_mon (ymd2ord 2019 1 1) check_after_2013 = Ok (Some (ymd2ord 2018 12 31))
  /\ bridge_fri (ymd2ord 2019 1 1) check_after_2013 = Ok None.
Proof.
  assert (Rp : representable (ymd2ord 2019 1 1 - 1)).
  { unfold representable. vm_compute. split; discriminate. }
  assert (Rn : representable (ymd2ord 2019 1 1 + 1)).
  { unfold representable. vm_compute. split; discriminate. }
  destruct (bridge_spec (ymd2ord 2019 1 1) check_after_2013 Rp Rn)
    as [(r1 & E1 & Y1 & _) (r2 & E2 & _ & N2)].
  split.
  - rewrite E1. f_equal. apply Y1. split; reflexivity.
  - rewrite E2. f_equal. apply N2. intros [W _]. discriminate W.
Defined.

(** The guards of the configured bridging rules look at the year of the
    bridging date. *)
Lemma check_after_2013_spec d : check_after_2013 d = true <-> 2013 < dt_year d.
Proof. unfold check_after_2013. rewrite Z.gtb_ltb. apply Z.ltb_lt. Qed.

Lemma check_between_2013_2024_spec d :
  check_between_2013_2024 d = true <-> 2013 < dt_year d < 2024.
Proof.
  unfold check_between_2013_2024.
  rewrite andb_true_iff, !Z.gtb_ltb, !Z.ltb_lt. lia.
Qed.

(** ** The extra working-day holiday of Tomb Sweeping Day *)

Lemma fold_tomb_sweeping_step dt : forall dts,
  fold_left tomb_sweeping_step dt dts = dts ++ flat_map tomb_sweeping_extra dt.
Proof.
  induction dt as [|d dt IH]; intros dts; cbn [fold_left flat_map].
  - now rewrite app_nil_r.
  - rewrite IH. unfold tomb_sweeping_step, tomb_sweeping_extra,
      on_april_4_after_2012.
    destruct ((dt_year d >? 2012) && (dt_month d =? 4) && (dt_day d =? 4)).
    + destruct (weekday (ymd2ord (dt_year d) 4 4) =? THURSDAY);
        now rewrite <- app_assoc.
    + reflexivity.
Qed.

Lemma ymd2ord_day y m d k : ymd2ord y m (d + k) = ymd2ord y m d + k.
Proof. unfold ymd2ord. apply Z.add_assoc. Qed.

Lemma on_april_4 d :
  on_april_4_after_2012 d = true ->
  ymd2ord (dt_year d) 4 4 = d
  /\ ymd2ord (dt_year d) 4 5 = d + 1
  /\ ymd2ord (dt_year d) 4 3 = d - 1.
Proof.
  unfold on_april_4_after_2012. rewrite !andb_true_iff, Z.gtb_ltb, Z.ltb_lt.
  rewrite !Z.eqb_eq. intros [[Y M] D].
  destruct (ymd2ord_ord2ymd d) as (E & _). rewrite M, D in E.
  split; [exact E|]. split.
  - transitivity (ymd2ord (dt_year d) 4 4 + 1).
    + exact (ymd2ord_day (dt_year d) 4 4 1).
    + rewrite E. reflexivity.
  - transitivity (ymd2ord (dt_year d) 4 4 + -1).
    + exact (ymd2ord_day (dt_year d) 4 4 (-1)).
    + rewrite E. reflexivity.
Qed.

(** C10.  [evalute_tomb_sweeping_workday_extra] yields, in the order of its
    input, exactly one date for each input date that is an April 4 of a year
    after 2012 and nothing for any other input date.  That one date is April 5
    of the year (the day after) when April 4 is a Thursday, and April 3 of the
    year (the day before) otherwise. *)
Theorem evalute_tomb_sweeping_workday_extra_spec :
  (forall dt,
     evalute_tomb_sweeping_workday_extra dt = flat_map tomb_sweeping_extra dt)
  /\ (forall d, on_april_4_after_2012 d = true ->
        (weekday d = THURSDAY ->
           tomb_sweeping_extra d = [d + 1]
           /\ ord2ymd (d + 1) = (dt_year d, 4, 5))
        /\ (weekday d <> THURSDAY ->
           tomb_sweeping_extra d = [d - 1]
           /\ ord2ymd (d - 1) = (dt_year d, 4, 3)))
  /\ (forall d, on_april_4_after_2012 d = false -> tomb_sweeping_extra d = []).
Proof.
  split; [|split].
  - intros dt. unfold evalute_tomb_sweeping_workday_extra.
    now rewrite fold_tomb_sweeping_step.
  - intros d Q. destruct (on_april_4 d Q) as (E & E5 & E3).
    assert (A5 : ord2ymd (ymd2ord (dt_year d) 4 5) = (dt_year d, 4, 5))
      by (apply ord2ymd_ymd2ord; [lia | unfold days_in_month; cbn; lia]).
    assert (A3 : ord2ymd (ymd2ord (dt_year d) 4 3) = (dt_year d, 4, 3))
      by (apply ord2ymd_ymd2ord; [lia | unfold days_in_month; cbn; lia]).
    rewrite E5 in A5. rewrite E3 in A3.
    unfold tomb_sweeping_extra. rewrite Q, E, E5, E3. split; intros W.
    + rewrite W. split; [reflexivity | exact A5].
    + apply Z.eqb_neq in W. rewrite W. split; [reflexivity | exact A3].
  - intros d Q. unfold tomb_sweeping_extra. now rewrite Q.
Qed.

(** April 4 was a Thursday in 2013 and in 2019, and a Friday in 2014; a
    festival on April 5, or before 2013, adds nothing. *)
Example evalute_tomb_sweeping_workday_extra_run :
  evalute_tomb_sweeping_workday_extra
    (to_datetime ["2012-04-04"; "2013-04-04"; "2014-04-04"; "2015-04-05";
                  "2019-04-04"]%string)
  = to_datetime ["2013-04-05"; "2014-04-03"; "2019-04-05"]%string.
Proof. vm_compute. reflexivity. Qed.

(** April 4 of 2019 was a Thursday: the extra day is the Friday, April 5. *)
Lemma evalute_tomb_sweeping_workday_extra_spec_witness :
  evalute_tomb_sweeping_workday_extra [Timestamp_of_iso "2019-04-04"]
  = [Timestamp_of_iso "2019-04-05"]
  /\ ord2ymd (Timestamp_of_iso "2019-04-04" + 1) = (2019, 4, 5).
Proof.
  destruct evalute_tomb_sweeping_workday_extra_spec as (E & Q & _).
  destruct (Q (Timestamp_of_iso "2019-04-04") eq_refl) as [Thu _].
  destruct (Thu eq_refl) as [X Y].
  split; [|exact Y].
  rewrite E. cbn [flat_map]. rewrite X. reflexivity.
Defined.

(** ** The execution times of the futures calendar *)

Lemma FUTURES_OPEN_TIME_OFFSET_nanos :
  Timedelta_hours FUTURES_OPEN_TIME_OFFSET
  = 12 * NANOS_IN_HOUR + 30 * NANOS_IN_MINUTE.
Proof. reflexivity. Qed.

Lemma FUTURES_CLOSE_TIME_OFFSET_nanos :
  Timedelta_hours FUTURES_CLOSE_TIME_OFFSET = - NANOS_IN_HOUR.
Proof. reflexivity. Qed.

(** C9.  [execution_time_from_open] adds 12 hours 30 minutes to a timestamp
    and [execution_time_from_close] takes 1 hour off it: each behaves as the
    Timestamp addition of that amount does, and returns the shifted
    timestamp whenever that is a Timestamp. *)
Theorem execution_time_offsets (t : Timestamp) :
  execution_time_from_open t
    = Timestamp_add t (12 * NANOS_IN_HOUR + 30 * NANOS_IN_MINUTE)
  /\ execution_time_from_close t = Timestamp_add t (- NANOS_IN_HOUR)
  /\ (in_bounds (t + (12 * NANOS_IN_HOUR + 30 * NANOS_IN_MINUTE)) = true ->
      execution_time_from_open t
        = Ok (t + (12 * NANOS_IN_HOUR + 30 * NANOS_IN_MINUTE)))
  /\ (in_bounds (t - NANOS_IN_HOUR) = true ->
      execution_time_from_close t = Ok (t - NANOS_IN_HOUR)).
Proof.
  unfold execution_time_from_open, execution_time_from_close.
  rewrite FUTURES_OPEN_TIME_OFFSET_nanos, FUTURES_CLOSE_TIME_OFFSET_nanos.
  repeat split.
  - intros B. unfold Timestamp_add. cbv zeta. now rewrite B.
  - intros B. unfold Timestamp_add. cbv zeta.
    change (t + - NANOS_IN_HOUR) with (t - NANOS_IN_HOUR). now rewrite B.
Qed.

(** A session that opens at 2021-04-01 22:01 UTC and closes at 2021-04-02
    22:00 UTC: the execution times are 10:31 UTC and 21:00 UTC on
    2021-04-02. *)
Lemma execution_time_offsets_witness :
  execution_time_from_open 1617314460000000000 = Ok 1617359460000000000
  /\ execution_time_from_close 1617400800000000000 = Ok 1617397200000000000.
Proof.
  split.
  - destruct (execution_time_offsets 1617314460000000000) as (_ & _ & H & _).
    exact (H eq_refl).
  - destruct (execution_time_offsets 1617400800000000000) as (_ & _ & _ & H).
    exact (H eq_refl).
Defined.

(** ** The message of NotSessionError *)

Lemma string_app_assoc (a b c : string) :
  ((a ++ b) ++ c = a ++ (b ++ c))%string.
Proof.
  induction a as [|x a IH]; [reflexivity|].
  change (String x ((a ++ b) ++ c) = String x (a ++ (b ++ c)))%string.
  now rewrite IH.
Qed.

Lemma case_phrase_inj str_ts cal c1 c2 :
  case_phrase str_ts cal c1 = case_phrase str_ts cal c2 -> c1 = c2.
Proof.
  destruct c1, c2; intros H; try reflexivity; exfalso;
    cbv [case_phrase String.append] in H; congruence.
Qed.

(** C1.  The message of a [NotSessionError] is its head followed by the
    phrase of exactly one of three cases: earlier than the first session when
    [ts < first_session]; else later than the last session when
    [ts > last_session]; else not a session.  The three phrases differ from
    each other, and when a parameter name is given the message contains it. *)
Theorem NotSessionError_str_cases (str_ts : Timestamp -> string)
  (cal : ExchangeCalendar) (t : Timestamp) (p : option string) :
  NotSessionError_str str_ts (mkNotSessionError cal t p)
  = (message_head str_ts t p ++ case_phrase str_ts cal (spec_case cal t))%string
  /\ (forall c, c <> spec_case cal t ->
        case_phrase str_ts cal c <> case_phrase str_ts cal (spec_case cal t))
  /\ (forall n, p = Some n ->
        contains n (NotSessionError_str str_ts (mkNotSessionError cal t p))).
Proof.
  assert (E : NotSessionError_str str_ts (mkNotSessionError cal t p)
              = (message_head str_ts t p
                 ++ case_phrase str_ts cal (spec_case cal t))%string).
  { unfold NotSessionError_str, spec_case, message_head, case_phrase.
    cbn [calendar ts param_name].
    destruct (t <? first_session cal); [destruct p; reflexivity|].
    destruct (t >? last_session cal); destruct p; reflexivity. }
  split; [exact E|]. split.
  - intros c N H. apply N. now apply case_phrase_inj in H.
  - intros n ->. rewrite E. unfold contains, message_head.
    exists "Parameter `"%string. eexists.
    rewrite !string_app_assoc. reflexivity.
Qed.

(** The three messages of one calendar, with and without a parameter name. *)
Example NotSessionError_str_run :
  let str_ts := fun t : Timestamp => if t =? 0 then "T0" else "T"%string in
  let cal := mkCalendar "XTAI" 10 20 in
  NotSessionError_str str_ts (mkNotSessionError cal 5 (Some "start"%string))
  = ("Parameter `start` takes a session label although received input that"
     ++ " parsed to 'T' which is earlier than the first session of calendar"
     ++ " 'XTAI' ('T').")%string
  /\ NotSessionError_str str_ts (mkNotSessionError cal 25 None)
     = "'T' is later than the last session of calendar 'XTAI' ('T')."%string
  /\ NotSessionError_str str_ts (mkNotSessionError cal 15 None)
     = "'T' is not a session of calendar 'XTAI'."%string.
Proof. repeat split. Qed.

(** A query for start = 5 on a calendar whose sessions run from 10 to 20 names
    the parameter in its message. *)
Lemma NotSessionError_str_cases_witness :
  contains "start"
    (NotSessionError_str (fun t => if t =? 10 then "T10" else "T"%string)
       (mkNotSessionError (mkCalendar "XTAI" 10 20) 5 (Some "start"%string)))
  /\ spec_case (mkCalendar "XTAI" 10 20) 5 = EarlierThanFirst.
Proof.
  destruct (NotSessionError_str_cases
              (fun t => if t =? 10 then "T10" else "T"%string)
              (mkCalendar "XTAI" 10 20) 5 (Some "start"%string))
    as (_ & _ & H).
  split; [exact (H "start"%string eq_refl) | reflexivity].
Defined.

(** ** The Chinese New Year cluster *)

Lemma rmap_over_map {A B C} (f : B -> result C) (g : A -> B) (h : A -> C)
  (P : A -> Prop) (l : list A) :
  (forall x, P x -> f (g x) = Ok (h x)) -> Forall P l ->
  rmap f (List.map g l) = Ok (List.map h l).
Proof.
  intros Hf Hl. induction Hl as [|x l Hx _ IH]; [reflexivity|].
  cbn [rmap List.map]. rewrite (Hf x Hx). cbn [rbind]. rewrite IH. reflexivity.
Qed.

Lemma roll_forward_bounds d : d <= roll_forward d <= d + 2.
Proof.
  unfold roll_forward.
  destruct (weekday d =? SATURDAY), (weekday d =? SUNDAY); lia.
Qed.

Lemma roll_back_bounds d : d - 2 <= roll_back d <= d.
Proof.
  unfold roll_back.
  destruct (weekday d =? SATURDAY), (weekday d =? SUNDAY); lia.
Qed.

Lemma next_monday_ok d :
  representable d -> representable (d + 2) -> next_monday d = Ok (roll_forward d).
Proof.
  unfold next_monday, roll_forward, SATURDAY, SUNDAY. intros R R2.
  destruct (weekday d =? 5); [now apply add_days_ok|].
  destruct (weekday d =? 6).
  - apply add_days_ok. unfold representable in *. lia.
  - now rewrite Z.add_0_r.
Qed.

Lemma previous_friday_ok d :
  representable d -> representable (d - 2) -> previous_friday d = Ok (roll_back d).
Proof.
  unfold previous_friday, roll_back, SATURDAY, SUNDAY. intros R R2.
  destruct (weekday d =? 5).
  - apply (add_days_ok d (-1)). unfold representable in *. lia.
  - destruct (weekday d =? 6); [now apply (add_days_ok d (-2))|].
    now rewrite Z.sub_0_r.
Qed.

Lemma roll_forward_weekday d : weekday (roll_forward d) < SATURDAY.
Proof.
  unfold roll_forward, SATURDAY, SUNDAY.
  destruct (Z.eqb_spec (weekday d) 5) as [E|E];
    [|destruct (Z.eqb_spec (weekday d) 6) as [E'|E']];
    revert E; try revert E'; unfold weekday; intros;
    Z.div_mod_to_equations; lia.
Qed.

Lemma roll_back_weekday d : weekday (roll_back d) < SATURDAY.
Proof.
  unfold roll_back, SATURDAY, SUNDAY.
  destruct (Z.eqb_spec (weekday d) 5) as [E|E];
    [|destruct (Z.eqb_spec (weekday d) 6) as [E'|E']];
    revert E; try revert E'; unfold weekday; intros;
    Z.div_mod_to_equations; lia.
Qed.

(** C3 as the spec words it does not hold: the festival of 2020 fell on
    Saturday 2020-01-25; the main day is rolled forward to Monday 2020-01-27,
    not to the nearest workday, Friday 2020-01-24, and the day after it is
    Tuesday 2020-01-28, not the nearest workday of the anchor plus one day,
    Monday 2020-01-27.  No fixed delta makes the main day the nearest workday
    of the shifted anchor. *)
Lemma lunar_offset_not_nearest_workday :
  let T := mkTables (to_datetime ["2020-01-25"%string]) [] [] [] in
  chinese_new_year T = Ok (to_datetime ["2020-01-27"%string])
  /\ lunar_offset_stage 0 (chinese_lunar_new_year_dates T)
     = Ok (to_datetime ["2020-01-24"%string])
  /\ chinese_new_year_2 T = Ok (to_datetime ["2020-01-28"%string])
  /\ lunar_offset_stage 1 (chinese_lunar_new_year_dates T)
     = Ok (to_datetime ["2020-01-27"%string])
  /\ ~ (exists delta, forall T' : LunisolarTables,
          chinese_new_year T'
          = lunar_offset_stage delta (chinese_lunar_new_year_dates T')).
Proof.
  cbv zeta.
  split; [vm_compute; reflexivity|]. split; [vm_compute; reflexivity|].
  split; [vm_compute; reflexivity|]. split; [vm_compute; reflexivity|].
  intros [delta H].
  pose proof (H (mkTables (to_datetime ["2020-01-25"%string]) [] [] [])) as H1.
  pose proof (H (mkTables (to_datetime ["2020-01-29"%string]) [] [] [])) as H2.
  unfold chinese_new_year, lunar_offset_stage, chinese_new_year_offset in H1, H2.
  cbn [chinese_lunar_new_year_dates] in H1, H2.
  change (to_datetime ["2020-01-25"%string]) with [737449] in H1.
  change (to_datetime ["2020-01-29"%string]) with [737453] in H2.
  cbn [rmap] in H1, H2.
  change (next_monday 737449) with (Ok (A:=datetime) 737451) in H1.
  change (next_monday 737453) with (Ok (A:=datetime) 737453) in H2.
  cbn [rbind] in H1, H2.
  destruct (add_days 737449 delta) as [s1|] eqn:A1; [|discriminate H1].
  destruct (add_days 737453 delta) as [s2|] eqn:A2; [|discriminate H2].
  apply add_days_inv in A1 as [-> _]. apply add_days_inv in A2 as [-> _].
  cbn [rbind] in H1, H2.
  destruct (nearest_workday (737449 + delta)) as [r1|] eqn:N1;
    [|discriminate H1].
  destruct (nearest_workday (737453 + delta)) as [r2|] eqn:N2;
    [|discriminate H2].
  cbn [rbind] in H1, H2. injection H1 as <-. injection H2 as <-.
  unfold nearest_workday in N1, N2.
  destruct (Z.eqb_spec (weekday (737449 + delta)) 5) as [W1|W1];
    [apply add_days_inv in N1 as [N1 _]|
     destruct (Z.eqb_spec (weekday (737449 + delta)) 6) as [W1'|W1'];
     [apply add_days_inv in N1 as [N1 _]|injection N1 as N1]];
  (destruct (Z.eqb_spec (weekday (737453 + delta)) 5) as [W2|W2];
    [apply add_days_inv in N2 as [N2 _]|
     destruct (Z.eqb_spec (weekday (737453 + delta)) 6) as [W2'|W2'];
     [apply add_days_inv in N2 as [N2 _]|injection N2 as N2]]);
  unfold weekday in *; Z.div_mod_to_equations; lia.
Qed.

Ltac bounds_of_rolls :=
  repeat match goal with
         | |- context [roll_forward ?x] =>
             lazymatch goal with
             | _ : x <= roll_forward x <= x + 2 |- _ => fail
             | _ => pose proof (roll_forward_bounds x)
             end
         | |- context [roll_back ?x] =>
             lazymatch goal with
             | _ : x - 2 <= roll_back x <= x |- _ => fail
             | _ => pose proof (roll_back_bounds x)
             end
         end.

Ltac stage_step :=
  match goal with
  | |- index_add_days (List.map ?g ?l) ?k = Ok _ =>
      unfold index_add_days;
      apply (rmap_over_map (fun d => add_days d k) g (fun a => g a + k)
                           well_inside);
      [intros a Ha; apply add_days_ok; unfold well_inside, representable,
         ONE_DAY, MAXORDINAL in *; bounds_of_rolls; lia
      | assumption]
  | |- chinese_new_year_offset (List.map ?g ?l) = Ok _ =>
      unfold chinese_new_year_offset;
      apply (rmap_over_map (fun d => next_monday d) g
                           (fun a => roll_forward (g a)) well_inside);
      [intros a Ha; apply next_monday_ok; unfold well_inside, representable,
         ONE_DAY, MAXORDINAL in *; bounds_of_rolls; lia
      | assumption]
  | |- before_chinese_new_year_offset (List.map ?g ?l) = Ok _ =>
      unfold before_chinese_new_year_offset;
      apply (rmap_over_map (fun d => previous_friday d) g
                           (fun a => roll_back (g a)) well_inside);
      [intros a Ha; apply previous_friday_ok; unfold well_inside, representable,
         ONE_DAY, MAXORDINAL in *; bounds_of_rolls; lia
      | assumption]
  end.

Lemma chinese_new_year_ok T :
  Forall well_inside (chinese_lunar_new_year_dates T) ->
  chinese_new_year T = Ok (List.map roll_forward (chinese_lunar_new_year_dates T)).
Proof.
  intros H. unfold chinese_new_year.
  rewrite <- (map_id (chinese_lunar_new_year_dates T)) at 1.
  stage_step.
Qed.

Lemma chinese_new_year_2_ok T :
  Forall well_inside (chinese_lunar_new_year_dates T) ->
  chinese_new_year_2 T
  = Ok (List.map (fun a => roll_forward (roll_forward a + ONE_DAY))
                 (chinese_lunar_new_year_dates T)).
Proof.
  intros H. unfold chinese_new_year_2. rewrite (chinese_new_year_ok T H).
  cbn [rbind].
  assert (E : index_add_days (List.map roll_forward (chinese_lunar_new_year_dates T))
                             ONE_DAY
              = Ok (List.map (fun a => roll_forward a + ONE_DAY)
                             (chinese_lunar_new_year_dates T))) by stage_step.
  rewrite E. cbn [rbind]. stage_step.
Qed.

Lemma chinese_new_years_eve_ok T :
  Forall well_inside (chinese_lunar_new_year_dates T) ->
  chinese_new_years_eve T
  = Ok (List.map (fun a => roll_back (roll_forward a + - ONE_DAY))
                 (chinese_lunar_new_year_dates T)).
Proof.
  intros H. unfold chinese_new_years_eve. rewrite (chinese_new_year_ok T H).
  cbn [rbind].
  assert (E : index_add_days (List.map roll_forward (chinese_lunar_new_year_dates T))
                             (- ONE_DAY)
              = Ok (List.map (fun a => roll_forward a + - ONE_DAY)
                             (chinese_lunar_new_year_dates T))) by stage_step.
  rewrite E. cbn [rbind]. stage_step.
Qed.

(** C3, as amended.  For anchors well inside the range of dates the five
    stages of the Chinese New Year cluster return, and each date is its
    neighbour in the cluster (the anchor, for the main day) shifted by one day
    (not shifted, for the main day) and then rolled off the weekend in the
    direction of the shift: forward to Monday for the main day, the day after
    and the day after that; back to Friday for the eve and the day before the
    eve.  Every date of the cluster is a Monday to Friday. *)
Theorem chinese_new_year_cluster (T : LunisolarTables) :
  Forall well_inside (chinese_lunar_new_year_dates T) ->
  let anchors := chinese_lunar_new_year_dates T in
  chinese_new_year T = Ok (List.map roll_forward anchors)
  /\ chinese_new_year_2 T
     = Ok (List.map (fun a => roll_forward (roll_forward a + ONE_DAY)) anchors)
  /\ chinese_new_year_3 T
     = Ok (List.map
             (fun a => roll_forward
                         (roll_forward (roll_forward a + ONE_DAY) + ONE_DAY))
             anchors)
  /\ chinese_new_years_eve T
     = Ok (List.map (fun a => roll_back (roll_forward a + - ONE_DAY)) anchors)
  /\ chinese_new_years_eve_2 T
     = Ok (List.map
             (fun a => roll_back
                         (roll_back (roll_forward a + - ONE_DAY) + - ONE_DAY))
             anchors)
  /\ (forall d, weekday (roll_forward d) < SATURDAY
                /\ weekday (roll_back d) < SATURDAY).
Proof.
  intros H anchors. subst anchors.
  split; [exact (chinese_new_year_ok T H)|].
  split; [exact (chinese_new_year_2_ok T H)|].
  split; [|split; [exact (chinese_new_years_eve_ok T H)|split]].
  - unfold chinese_new_year_3. rewrite (chinese_new_year_2_ok T H).
    cbn [rbind].
    assert (E : index_add_days
                  (List.map (fun a => roll_forward (roll_forward a + ONE_DAY))
                            (chinese_lunar_new_year_dates T)) ONE_DAY
                = Ok (List.map
                        (fun a => roll_forward (roll_forward a + ONE_DAY) + ONE_DAY)
                        (chinese_lunar_new_year_dates T))) by stage_step.
    rewrite E. cbn [rbind]. stage_step.
  - unfold chinese_new_years_eve_2. rewrite (chinese_new_years_eve_ok T H).
    cbn [rbind].
    assert (E : index_add_days
                  (List.map (fun a => roll_back (roll_forward a + - ONE_DAY))
                            (chinese_lunar_new_year_dates T)) (- ONE_DAY)
                = Ok (List.map
                        (fun a => roll_back (roll_forward a + - ONE_DAY)
                                  + - ONE_DAY)
                        (chinese_lunar_new_year_dates T))) by stage_step.
    rewrite E. cbn [rbind]. stage_step.
  - intros d. split; [apply roll_forward_weekday | apply roll_back_weekday].
Qed.

(** The cluster of 2020, whose festival fell on Saturday 2020-01-25: the main
    day is Monday 2020-01-27, followed by Tuesday and Wednesday and preceded
    by Friday 2020-01-24 and Thursday 2020-01-23. *)
Lemma chinese_new_year_cluster_witness :
  let T := mkTables (to_datetime ["2020-01-25"%string]) [] [] [] in
  chinese_new_year T = Ok (to_datetime ["2020-01-27"%string])
  /\ chinese_new_year_2 T = Ok (to_datetime ["2020-01-28"%string])
  /\ chinese_new_year_3 T = Ok (to_datetime ["2020-01-29"%string])
  /\ chinese_new_years_eve T = Ok (to_datetime ["2020-01-24"%string])
  /\ chinese_new_years_eve_2 T = Ok (to_datetime ["2020-01-23"%string]).
Proof.
  cbv zeta.
  assert (H : Forall well_inside
                (chinese_lunar_new_year_dates
                   (mkTables (to_datetime ["2020-01-25"%string]) [] [] []))).
  { constructor; [|constructor]. vm_compute. split; reflexivity. }
  destruct (chinese_new_year_cluster _ H) as (E1 & E2 & E3 & E4 & E5 & _).
  rewrite E1, E2, E3, E4, E5. repeat split.
Defined.

(** ** Mapping a computation that can raise *)

Lemma rmap_In {A B} (f : A -> result B) (l : list A) (ys : list B) (x : A) :
  rmap f l = Ok ys -> In x l -> exists y, f x = Ok y /\ In y ys.
Proof.
  revert ys. induction l as [|a l IH]; intros ys E Hx; [destruct Hx|].
  cbn [rmap] in E. destruct (f a) as [b|] eqn:Fa; [|discriminate E].
  cbn [rbind] in E. destruct (rmap f l) as [bs|] eqn:Fl; [|discriminate E].
  cbn [rbind] in E. injection E as <-. destruct Hx as [<-|Hx].
  - exists b. split; [exact Fa | now left].
  - destruct (IH bs eq_refl Hx) as (y & Fy & Hy). exists y.
    split; [exact Fy | now right].
Qed.

Lemma rmap_total {A B} (f : A -> result B) (l : list A) :
  (forall x, In x l -> exists y, f x = Ok y) -> exists ys, rmap f l = Ok ys.
Proof.
  induction l as [|a l IH]; intros H; [now exists []|].
  destruct (H a (or_introl eq_refl)) as [b Fa].
  destruct IH as [bs Fl]; [intros x Hx; apply H; now right|].
  exists (b :: bs). cbn [rmap]. rewrite Fa. cbn [rbind]. rewrite Fl. reflexivity.
Qed.

Lemma rmap_inverse {A B} (f : A -> result B) (g : B -> A) (l : list A)
  (ys : list B) :
  (forall x y, f x = Ok y -> g y = x) -> rmap f l = Ok ys -> List.map g ys = l.
Proof.
  intros Hg. revert ys. induction l as [|a l IH]; intros ys E.
  - injection E as <-. reflexivity.
  - cbn [rmap] in E. destruct (f a) as [b|] eqn:Fa; [|discriminate E].
    cbn [rbind] in E. destruct (rmap f l) as [bs|] eqn:Fl; [|discriminate E].
    cbn [rbind] in E. injection E as <-. cbn [List.map].
    rewrite (Hg a b Fa), (IH bs eq_refl). reflexivity.
Qed.

(** ** The holiday set *)

Lemma evaluate_recurring_elem h start end_ s a o :
  evaluate (Recurring h) start end_ = Ok s ->
  In a (anchor_dates h start end_) -> observance h a = Ok (Some o) -> o ∈ s.
Proof.
  cbn [evaluate]. intros E Ha Ho.
  destruct (rmap (observance h) (anchor_dates h start end_)) as [produced|] eqn:P;
    [|discriminate E].
  cbn [rbind] in E. injection E as <-.
  destruct (rmap_In _ _ _ a P Ha) as (y & Fy & Hy).
  rewrite Ho in Fy. injection Fy as <-.
  apply elem_of_list_to_set, list_elem_of_omap.
  exists (Some o). split; [now apply list_elem_of_In | reflexivity].
Qed.

Lemma evaluate_adhoc_elem dates start end_ s d :
  evaluate (AdHoc dates) start end_ = Ok s ->
  In d dates -> in_range start end_ d = true -> d ∈ s.
Proof.
  cbn [evaluate]. intros E Hd Hr. injection E as <-.
  apply elem_of_list_to_set, list_elem_of_In, filter_In. now split.
Qed.

Lemma holiday_set_elem rules start end_ S r x :
  holiday_set rules start end_ = Ok S -> In r rules ->
  exists s, evaluate r start end_ = Ok s /\ (x ∈ s -> x ∈ S).
Proof.
  unfold holiday_set. intros E Hr.
  destruct (rmap (fun r => evaluate r start end_) rules) as [sets|] eqn:P;
    [|discriminate E].
  cbn [rbind] in E. injection E as <-.
  destruct (rmap_In _ _ _ r P Hr) as (s & Es & Hs).
  exists s. split; [exact Es|]. intros Hx.
  apply elem_of_union_list. exists s. split; [now apply list_elem_of_In | exact Hx].
Qed.

Lemma anchor_dates_inside h start end_ a :
  In a (anchor_dates h start end_) -> start <= a <= end_.
Proof.
  unfold anchor_dates, in_range. intros H. apply filter_In in H as [_ H].
  apply andb_prop in H as [H _]. apply andb_prop in H as [H1 H2].
  apply Z.leb_le in H1, H2. lia.
Qed.

Lemma always_weekend_makeup_ok a :
  representable a -> exists o, always weekend_makeup a = Ok (Some o).
Proof.
  intros R. unfold always, weekend_makeup.
  destruct (dt_year a <? 2014); [now eexists|].
  destruct (Z.eqb_spec (weekday a) SUNDAY) as [W|W].
  - rewrite (add_days_ok a ONE_DAY) by now apply sunday_has_a_tomorrow.
    now eexists.
  - destruct (Z.eqb_spec (weekday a) SATURDAY) as [W'|W']; [|now eexists].
    rewrite (add_days_ok a (- ONE_DAY)) by now apply saturday_has_a_yesterday.
    now eexists.
Qed.

Lemma always_nearest_workday_2013_thr_2023_ok a :
  representable (a - 1) -> representable (a + 1) ->
  exists o, always nearest_workday_2013_thr_2023 a = Ok (Some o).
Proof.
  intros Rp Rn. unfold always, nearest_workday_2013_thr_2023, nearest_workday.
  assert (R : representable a) by (unfold representable in *; lia).
  destruct ((2024 >? dt_year a) && (dt_year a >? 2013)); [|now eexists].
  destruct (weekday a =? 5).
  - rewrite (add_days_ok a (-1)) by exact Rp. now eexists.
  - destruct (weekday a =? 6); [|now eexists].
    rewrite (add_days_ok a 1) by exact Rn. now eexists.
Qed.

Lemma bridge_mon_ok a checker :
  representable (a - 1) -> exists o, bridge_mon a checker = Ok o.
Proof.
  intros R. unfold bridge_mon.
  rewrite (add_days_ok a (- ONE_DAY)) by exact R. now eexists.
Qed.

Lemma bridge_fri_ok a checker :
  representable (a + 1) -> exists o, bridge_fri a checker = Ok o.
Proof.
  intros R. unfold bridge_fri.
  rewrite (add_days_ok a ONE_DAY) by exact R. now eexists.
Qed.

(** Every configured observance returns on a date that has neighbours. *)
Lemma XTAI_observances_ok h a :
  In h XTAI_regular_holidays ->
  representable (a - 1) -> representable (a + 1) ->
  exists o, observance h a = Ok o.
Proof.
  intros Hh Rp Rn.
  assert (R : representable a) by (unfold representable in *; lia).
  unfold XTAI_regular_holidays in Hh. cbn [In] in Hh.
  repeat (destruct Hh as [<-|Hh]);
    try (cbn [observance NewYearsDay PeaceMemorialDay WomenAndChildrensDay
              NationalDay LabourDay new_years_day european_labour_day];
         first
           [ destruct (always_weekend_makeup_ok a R) as [o ->]; now eexists
           | destruct (always_nearest_workday_2013_thr_2023_ok a Rp Rn)
               as [o ->]; now eexists ]);
    try (now apply bridge_mon_ok); try (now apply bridge_fri_ok).
  destruct Hh.
Qed.

Lemma bridge_mon_fires a checker b :
  bridge_mon a checker = Ok (Some b) -> b = a - 1 /\ weekday a = TUESDAY.
Proof.
  unfold bridge_mon. destruct (add_days a (- ONE_DAY)) as [p|] eqn:A;
    [|discriminate].
  apply add_days_inv in A as [-> _]. cbn [rbind].
  destruct (Z.eqb_spec (weekday (a + - ONE_DAY)) MONDAY) as [W|W];
    [|discriminate].
  destruct (checker (a + - ONE_DAY)); [|discriminate]. intros [= <-].
  split; [reflexivity|]. revert W. unfold weekday, MONDAY, TUESDAY, ONE_DAY.
  intros W. Z.div_mod_to_equations. lia.
Qed.

Lemma bridge_fri_fires a checker b :
  bridge_fri a checker = Ok (Some b) -> b = a + 1 /\ weekday a = THURSDAY.
Proof.
  unfold bridge_fri. destruct (add_days a ONE_DAY) as [p|] eqn:A;
    [|discriminate].
  apply add_days_inv in A as [-> _]. cbn [rbind].
  destruct (Z.eqb_spec (weekday (a + ONE_DAY)) FRIDAY) as [W|W];
    [|discriminate].
  destruct (checker (a + ONE_DAY)); [|discriminate]. intros [= <-].
  split; [reflexivity|]. revert W. unfold weekday, FRIDAY, THURSDAY, ONE_DAY.
  intros W. Z.div_mod_to_equations. lia.
Qed.

Lemma always_weekend_makeup_on_workday a :
  weekday a <> SUNDAY -> weekday a <> SATURDAY ->
  always weekend_makeup a = Ok (Some a).
Proof.
  intros W1 W2. unfold always, weekend_makeup.
  apply Z.eqb_neq in W1, W2. rewrite W1, W2.
  destruct (dt_year a <? 2014); reflexivity.
Qed.

(** A bridging rule fires only on a Tuesday or a Thursday, where the base rule
    observes the anchor itself, and its date is a neighbour of the anchor. *)
Lemma XTAI_bridge_fires base extra a b :
  In (base, extra) XTAI_bridged_rules ->
  observance extra a = Ok (Some b) ->
  observance base a = Ok (Some a) /\ b <> a.
Proof.
  intros Hp Hb. unfold XTAI_bridged_rules in Hp. cbn [In] in Hp.
  repeat (destruct Hp as [[= <- <-]|Hp]); try destruct Hp;
    cbn [observance NewYearsDay PeaceMemorialDay WomenAndChildrensDay
         NationalDay new_years_day NewYearsDayExtraMon NewYearsDayExtraFri
         PeaceMemorialDayExtraMon PeaceMemorialDayExtraFri
         WomenAndChildrensDayExtraMon WomenAndChildrensDayExtraFri
         NationalDayExtraMon NationalDayExtraFri
         bridge_mon_2014_thr_2023 bridge_fri_2014_thr_2023] in *;
    first [ apply bridge_mon_fires in Hb as [-> W]
          | apply bridge_fri_fires in Hb as [-> W] ];
    (split; [apply always_weekend_makeup_on_workday; rewrite W; discriminate
            | lia]).
Qed.

Lemma XTAI_bridged_rules_configured base extra :
  In (base, extra) XTAI_bridged_rules ->
  In base XTAI_regular_holidays /\ In extra XTAI_regular_holidays
  /\ forall start end_,
       anchor_dates base start end_ = anchor_dates extra start end_.
Proof.
  intros Hp. unfold XTAI_bridged_rules in Hp. cbn [In] in Hp.
  repeat (destruct Hp as [[= <- <-]|Hp]); try destruct Hp;
    (split; [cbn; tauto | split; [cbn; tauto | reflexivity]]).
Qed.

(** C6.  Over a range of dates that have neighbours, the holiday set of the
    XTAI calendar is produced, and for every base rule that has a bridging
    rule, both are rules of the calendar in their own right and, for every
    anchor on which the bridging rule fires, the set contains both the date
    the base rule observes for the anchor (the anchor itself) and the
    bridging date, which is another date. *)
Theorem bridging_adds_holidays (adhoc : list datetime) (start end_ : datetime) :
  1 < start -> end_ < MAXORDINAL ->
  let rules := List.map Recurring XTAI_regular_holidays ++ [AdHoc adhoc] in
  exists S, holiday_set rules start end_ = Ok S
    /\ forall base extra, In (base, extra) XTAI_bridged_rules ->
         In (Recurring base) rules /\ In (Recurring extra) rules
         /\ forall a b,
              In a (anchor_dates extra start end_) ->
              observance extra a = Ok (Some b) ->
              In a (anchor_dates base start end_)
              /\ observance base a = Ok (Some a)
              /\ b <> a /\ a ∈ S /\ b ∈ S.
Proof.
  intros Hs He rules.
  assert (T : exists sets, rmap (fun r => evaluate r start end_) rules = Ok sets).
  { apply rmap_total. intros r Hr. subst rules.
    apply in_app_or in Hr as [Hr|[<-|[]]]; [|now eexists].
    apply in_map_iff in Hr as (h & <- & Hh). cbn [evaluate].
    destruct (rmap_total (observance h) (anchor_dates h start end_)) as [p ->].
    - intros a Ha. apply anchor_dates_inside in Ha.
      apply (XTAI_observances_ok h a Hh);
        unfold representable, MAXORDINAL in *; lia.
    - now eexists. }
  destruct T as [sets T].
  assert (E : holiday_set rules start end_ = Ok (⋃ sets))
    by (unfold holiday_set; now rewrite T).
  exists (⋃ sets). split; [exact E|].
  intros base extra Hp.
  destruct (XTAI_bridged_rules_configured base extra Hp) as (Hb & Hx & Ha).
  assert (Rb : In (Recurring base) rules)
    by (subst rules; apply in_or_app; left; now apply in_map).
  assert (Rx : In (Recurring extra) rules)
    by (subst rules; apply in_or_app; left; now apply in_map).
  split; [exact Rb|]. split; [exact Rx|].
  intros a b Hin Hfire.
  destruct (XTAI_bridge_fires base extra a b Hp Hfire) as [Hobs Hne].
  rewrite Ha. split; [exact Hin|]. split; [exact Hobs|]. split; [exact Hne|].
  split.
  - destruct (holiday_set_elem rules start end_ _ (Recurring base) a E Rb)
      as (s & Es & Hs').
    apply Hs'. apply (evaluate_recurring_elem base start end_ s a a Es);
      [now rewrite Ha | exact Hobs].
  - destruct (holiday_set_elem rules start end_ _ (Recurring extra) b E Rx)
      as (s & Es & Hs').
    apply Hs'. now apply (evaluate_recurring_elem extra start end_ s a b Es).
Qed.

(** New Year's Day of 2019 was a Tuesday: over December 2018 to December
    2019 the holiday set has both 2019-01-01 and the bridging Monday
    2018-12-31. *)
Lemma bridging_adds_holidays_witness :
  exists S,
    holiday_set (List.map Recurring XTAI_regular_holidays ++ [AdHoc []])
                (ymd2ord 2018 12 1) (ymd2ord 2019 12 31) = Ok S
    /\ ymd2ord 2019 1 1 ∈ S /\ ymd2ord 2018 12 31 ∈ S.
Proof.
  destruct (bridging_adds_holidays [] (ymd2ord 2018 12 1) (ymd2ord 2019 12 31))
    as (S & E & H); [reflexivity | reflexivity |].
  exists S. split; [exact E|].
  destruct (H NewYearsDay NewYearsDayExtraMon (or_introl eq_refl))
    as (_ & _ & Hab).
  destruct (Hab (ymd2ord 2019 1 1) (ymd2ord 2018 12 31))
    as (_ & _ & _ & Ha & Hb).
  - vm_compute. left. reflexivity.
  - vm_compute. reflexivity.
  - split; [exact Ha | exact Hb].
Defined.

(** ** The session index *)

Lemma strictly_increasing_above x l :
  strictly_increasing (x :: l) = true -> Forall (fun y => x < y) l.
Proof.
  revert x. induction l as [|y l IH]; intros x H; [constructor|].
  cbn [strictly_increasing] in H. apply andb_prop in H as [Hxy Hl].
  apply Z.ltb_lt in Hxy. constructor; [exact Hxy|].
  eapply Forall_impl; [exact (IH y Hl)|]. cbn. intros z Hz. lia.
Qed.

Lemma strictly_increasing_tail x l :
  strictly_increasing (x :: l) = true -> strictly_increasing l = true.
Proof.
  destruct l as [|y l]; [reflexivity|]. cbn [strictly_increasing].
  intros H. now apply andb_prop in H as [_ H].
Qed.

Lemma strictly_increasing_cons x l :
  Forall (fun y => x < y) l -> strictly_increasing l = true ->
  strictly_increasing (x :: l) = true.
Proof.
  destruct l as [|y l]; [reflexivity|]. intros F H.
  cbn [strictly_increasing]. apply andb_true_intro. split; [|exact H].
  apply Z.ltb_lt. now inversion F.
Qed.

Lemma Forall_filter_keep {A} (P : A -> Prop) (f : A -> bool) (l : list A) :
  Forall P l -> Forall P (List.filter f l).
Proof.
  intros H. apply List.Forall_forall. intros x Hx. apply filter_In in Hx as [Hx _].
  revert x Hx. now apply List.Forall_forall.
Qed.

Lemma strictly_increasing_filter f l :
  strictly_increasing l = true -> strictly_increasing (List.filter f l) = true.
Proof.
  induction l as [|x l IH]; intros H; [reflexivity|].
  pose proof (strictly_increasing_above x l H) as A.
  pose proof (strictly_increasing_tail x l H) as Tl.
  cbn [List.filter]. destruct (f x); [|now apply IH].
  apply strictly_increasing_cons; [now apply Forall_filter_keep | now apply IH].
Qed.

Lemma strictly_increasing_seqZ m n : strictly_increasing (seqZ m n) = true.
Proof.
  remember (Z.to_nat n) as k eqn:Hk. revert m n Hk.
  induction k as [|k IH]; intros m n Hk.
  - destruct (Z_le_gt_dec n 0) as [Hn|Hn]; [|lia].
    unfold seqZ. replace (Z.to_nat n) with O by lia. reflexivity.
  - rewrite seqZ_cons by lia. apply strictly_increasing_cons.
    + apply List.Forall_forall. intros y Hy.
      apply list_elem_of_In, elem_of_seqZ in Hy. lia.
    + apply IH. lia.
Qed.

Lemma session_of_date cfg d x : session_of cfg d = Ok x -> date x = d.
Proof.
  unfold session_of.
  destruct (time_for (open_times cfg) d); [|discriminate].
  destruct (time_for (close_times cfg) d); [|discriminate].
  now intros [= <-].
Qed.

Lemma apply_overrides_dates tz_ set sessions ovs sessions' :
  (forall s t, date (set s t) = date s) ->
  apply_overrides tz_ set sessions ovs = Ok sessions' ->
  List.map date sessions' = List.map date sessions.
Proof.
  intros Hset. revert sessions. induction ovs as [|ov ovs IH]; intros sessions E.
  - now injection E as <-.
  - cbn [apply_overrides] in E. unfold apply_override in E.
    destruct (is_session_date sessions (fst ov)); [|discriminate E].
    cbn [rbind] in E. rewrite (IH _ E), List.map_map.
    apply List.map_ext. intros s. destruct (date s =? fst ov); [apply Hset|].
    reflexivity.
Qed.

(** What a successful [build] has done: the dates of the index are the days of
    the range that trade and are no holiday, and the invariants hold. *)
Lemma build_inv cfg start end_ idx :
  build cfg start end_ = Ok idx ->
  exists holidays,
    holiday_set (regular_holidays cfg ++ [AdHoc (adhoc_holidays cfg)])
                start end_ = Ok holidays
    /\ List.map date idx
       = List.filter (fun d => negb (bool_decide (d ∈ holidays)))
           (List.filter (fun d => weekmask cfg (weekday d))
              (seqZ start (end_ - start + 1)))
    /\ index_invariants idx = true.
Proof.
  unfold build. intros E.
  destruct (holiday_set _ start end_) as [holidays|]; [|discriminate E].
  cbn [rbind] in E. exists holidays. split; [reflexivity|].
  destruct (rmap (session_of cfg) _) as [s0|] eqn:R0; [|discriminate E].
  cbn [rbind] in E.
  destruct (apply_overrides (tz cfg) set_open s0 _) as [s1|] eqn:R1;
    [|discriminate E].
  cbn [rbind] in E.
  destruct (apply_overrides (tz cfg) set_close s1 _) as [s2|] eqn:R2;
    [|discriminate E].
  cbn [rbind] in E.
  destruct (index_invariants s2) eqn:I; [|discriminate E].
  injection E as <-. split; [|exact I].
  rewrite (apply_overrides_dates (tz cfg) set_close s1 _ s2
             (fun s t => eq_refl) R2).
  rewrite (apply_overrides_dates (tz cfg) set_open s0 _ s1
             (fun s t => eq_refl) R1).
  exact (rmap_inverse _ date _ _ (session_of_date cfg) R0).
Qed.

Lemma chain_first l parts all :
  chain (Ok l :: parts) = Ok all -> forall d, In d l -> In d all.
Proof.
  cbn [chain rbind]. destruct (chain parts) as [rest|]; [|discriminate].
  cbn [rbind]. intros [= <-] d Hd. apply in_or_app. now left.
Qed.

(** C7.  2021-04-02 is one of the ad-hoc holidays of the XTAI calendar,
    whatever the lunisolar tables, and no session index built for the calendar
    has it as a session date, whatever the weekly trading pattern and the
    range. *)
Theorem adhoc_2021_04_02_is_no_session (Asia_Taipei : tzinfo)
  (base_weekmask : Z -> bool) (T : LunisolarTables)
  (cfg : CalendarConfiguration) :
  XTAIExchangeCalendar Asia_Taipei base_weekmask T = Ok cfg ->
  In (Timestamp_of_iso "2021-04-02") extra_holidays
  /\ In (Timestamp_of_iso "2021-04-02") (adhoc_holidays cfg)
  /\ forall start end_ idx,
       build cfg start end_ = Ok idx ->
       ~ In (Timestamp_of_iso "2021-04-02") (List.map date idx).
Proof.
  intros C.
  assert (Hx : In (Timestamp_of_iso "2021-04-02") extra_holidays)
    by (left; reflexivity).
  assert (Ha : In (Timestamp_of_iso "2021-04-02") (adhoc_holidays cfg)).
  { unfold XTAIExchangeCalendar in C.
    destruct (XTAI_adhoc_holidays T) as [adhoc|] eqn:A; [|discriminate C].
    cbn [rbind] in C. injection C as <-. cbn [adhoc_holidays].
    unfold XTAI_adhoc_holidays in A. exact (chain_first _ _ _ A _ Hx). }
  split; [exact Hx|]. split; [exact Ha|].
  intros start end_ idx B Hin.
  destruct (build_inv cfg start end_ idx B) as (holidays & H & D & _).
  rewrite D in Hin. apply filter_In in Hin as [Hin Hnot].
  apply filter_In in Hin as [Hin _].
  apply list_elem_of_In, elem_of_seqZ in Hin.
  destruct (holiday_set_elem _ start end_ holidays
              (AdHoc (adhoc_holidays cfg)) (Timestamp_of_iso "2021-04-02") H)
    as (s & Es & Hs).
  { apply in_or_app. right. now left. }
  assert (Hmem : Timestamp_of_iso "2021-04-02" ∈ holidays).
  { apply Hs. apply (evaluate_adhoc_elem _ start end_ s _ Es Ha).
    unfold in_range. apply andb_true_intro.
    split; apply Z.leb_le; lia. }
  apply negb_true_iff, bool_decide_eq_false in Hnot. now apply Hnot.
Qed.

(** Two weeks of the XTAI calendar around 2021-04-02, a Friday, with the usual
    Monday-to-Friday pattern and empty lunisolar tables: the sessions are the
    weekdays but Friday 2021-04-02 (ad hoc) and Monday 2021-04-05 (Women and
    Children's Day, made up from Sunday). *)
Lemma adhoc_2021_04_02_is_no_session_witness :
  match XTAIExchangeCalendar (mkTz (fun _ => 480)) (fun w => w <? 5)
                             (mkTables [] [] [] []) with
  | Ok cfg =>
      match build cfg (Timestamp_of_iso "2021-03-29")
                  (Timestamp_of_iso "2021-04-09") with
      | Ok idx =>
          List.map date idx
          = to_datetime ["2021-03-29"; "2021-03-30"; "2021-03-31"; "2021-04-01";
                         "2021-04-06"; "2021-04-07"; "2021-04-08";
                         "2021-04-09"]%string
          /\ ~ In (Timestamp_of_iso "2021-04-02") (List.map date idx)
      | Raise _ => False
      end
  | Raise _ => False
  end.
Proof.
  assert (A : XTAI_adhoc_holidays (mkTables [] [] [] [])
              = Ok (extra_holidays ++ typhoons ++ chinese_new_year_extras)).
  { vm_compute. reflexivity. }
  destruct (XTAIExchangeCalendar (mkTz (fun _ => 480)) (fun w => w <? 5)
                                 (mkTables [] [] [] [])) as [cfg|e] eqn:C.
  - destruct (build cfg (Timestamp_of_iso "2021-03-29")
                    (Timestamp_of_iso "2021-04-09")) as [idx|e] eqn:B.
    + split.
      * unfold XTAIExchangeCalendar in C. rewrite A in C. cbn [rbind] in C.
        injection C as <-. vm_compute in B. injection B as <-.
        vm_compute. reflexivity.
      * destruct (adhoc_2021_04_02_is_no_session _ _ _ cfg C) as (_ & _ & H).
        exact (H _ _ idx B).
    + unfold XTAIExchangeCalendar in C. rewrite A in C. cbn [rbind] in C.
      injection C as <-. vm_compute in B. discriminate B.
  - unfold XTAIExchangeCalendar in C. rewrite A in C. discriminate C.
Defined.

Lemma rmap_In_inv {A B} (f : A -> result B) (l : list A) (ys : list B) (y : B) :
  rmap f l = Ok ys -> In y ys -> exists x, In x l /\ f x = Ok y.
Proof.
  revert ys. induction l as [|a l IH]; intros ys E Hy.
  - injection E as <-. destruct Hy.
  - cbn [rmap] in E. destruct (f a) as [b|] eqn:Fa; [|discriminate E].
    cbn [rbind] in E. destruct (rmap f l) as [bs|] eqn:Fl; [|discriminate E].
    cbn [rbind] in E. injection E as <-. destruct Hy as [<-|Hy].
    + exists a. split; [now left | exact Fa].
    + destruct (IH bs eq_refl Hy) as (x & Hx & Fx). exists x.
      split; [now right | exact Fx].
Qed.

Lemma index_invariants_open_close idx x :
  index_invariants idx = true -> In x idx -> open_instant x < close_instant x.
Proof.
  unfold index_invariants. intros I Hx. apply andb_prop in I as [I _].
  rewrite forallb_forall in I. apply Z.ltb_lt. now apply I.
Qed.

(** A futures session: it opens at 18:01 on the day before its date and
    closes at 18:00 on its date, 23 hours 59 minutes of wall-clock time
    later. *)
Lemma futures_session tz_ wm r1 r2 r3 d :
  (forall w w', utcoffset tz_ w' - utcoffset tz_ w < 1439) ->
  session_of (QuantopianUSFuturesCalendar tz_ wm r1 r2 r3) d
  = Ok (mkSession d (localize tz_ (d - 1) (time 18 1))
                    (localize tz_ d (time 18 0)) false)
  /\ localize tz_ (d - 1) (time 18 1) < localize tz_ d (time 18 0).
Proof.
  intros Hoff. split; [reflexivity|].
  unfold localize, time, EPOCH_ORDINAL, MINUTES_IN_DAY, NANOS_IN_MINUTE.
  cbv zeta.
  pose proof (Hoff ((d - 1 - 719163) * 1440 + (18 * 60 + 1))
                   ((d - 719163) * 1440 + (18 * 60 + 0))) as H.
  lia.
Qed.

(** C2.  Every session of a session index that was built opens before it
    closes.  For the US futures calendar, in a zone whose UTC offsets differ by
    less than 23 hours 59 minutes, every session opens at 18:01 wall-clock
    time on the day before its date (day-offset -1) and closes at 18:00 on its
    date, the open is before the close, and the index is built for every
    range on which the holiday rules evaluate. *)
Theorem sessions_open_before_close :
  (forall cfg start end_ idx,
     build cfg start end_ = Ok idx ->
     forall x, In x idx -> open_instant x < close_instant x)
  /\ (forall (America_New_York : tzinfo) (base_weekmask : Z -> bool)
        (USNewYearsDay GoodFriday Christmas : HolidayRule),
        (forall w w',
           utcoffset America_New_York w' - utcoffset America_New_York w < 1439) ->
        let cal := QuantopianUSFuturesCalendar America_New_York base_weekmask
                     USNewYearsDay GoodFriday Christmas in
        (forall d, exists x,
            session_of cal d = Ok x /\ date x = d
            /\ open_instant x = localize America_New_York (d - 1) (time 18 1)
            /\ close_instant x = localize America_New_York d (time 18 0)
            /\ open_instant x < close_instant x)
        /\ (forall start end_ holidays,
              holiday_set (regular_holidays cal ++ [AdHoc (adhoc_holidays cal)])
                          start end_ = Ok holidays ->
              exists idx, build cal start end_ = Ok idx)).
Proof.
  split.
  - intros cfg start end_ idx B x Hx.
    destruct (build_inv cfg start end_ idx B) as (_ & _ & _ & I).
    exact (index_invariants_open_close idx x I Hx).
  - intros tz_ wm r1 r2 r3 Hoff cal.
    assert (S : forall d, exists x,
               session_of cal d = Ok x /\ date x = d
               /\ open_instant x = localize tz_ (d - 1) (time 18 1)
               /\ close_instant x = localize tz_ d (time 18 0)
               /\ open_instant x < close_instant x).
    { intros d. destruct (futures_session tz_ wm r1 r2 r3 d Hoff) as [E L].
      eexists. split; [exact E|]. cbn [date open_instant close_instant].
      repeat split. exact L. }
    split; [exact S|].
    intros start end_ holidays Hh. unfold build. rewrite Hh. cbn [rbind].
    set (kept := List.filter _ (List.filter _ _)).
    destruct (rmap_total (session_of cal) kept) as [s0 R0].
    { intros d _. destruct (S d) as (x & E & _). now exists x. }
    rewrite R0. cbn [rbind special_opens special_closes cal
                     QuantopianUSFuturesCalendar List.filter apply_overrides].
    assert (I : index_invariants s0 = true).
    { unfold index_invariants. apply andb_true_intro. split.
      - apply forallb_forall. intros x Hx.
        destruct (rmap_In_inv _ _ _ x R0 Hx) as (d & _ & Ed).
        destruct (S d) as (x' & E' & _ & Eo & Ec & L).
        rewrite E' in Ed. injection Ed as <-. now apply Z.ltb_lt.
      - rewrite (rmap_inverse _ date _ _ (session_of_date cal) R0).
        subst kept. do 2 apply strictly_increasing_filter.
        apply strictly_increasing_seqZ. }
    rewrite I. now eexists.
Qed.

(** The futures sessions of Thursday 2021-03-11 to Tuesday 2021-03-16, across
    the change to daylight saving time of Sunday 2021-03-14. *)
Lemma sessions_open_before_close_witness :
  exists idx,
    build (QuantopianUSFuturesCalendar eastern_2021 (fun w => w <? 5)
             (AdHoc (to_datetime ["2021-01-01"%string]))
             (AdHoc (to_datetime ["2021-04-02"%string]))
             (AdHoc (to_datetime ["2021-12-24"%string])))
          (Timestamp_of_iso "2021-03-11") (Timestamp_of_iso "2021-03-16")
    = Ok idx
    /\ List.map date idx
       = to_datetime ["2021-03-11"; "2021-03-12"; "2021-03-15";
                      "2021-03-16"]%string
    /\ forall x, In x idx -> open_instant x < close_instant x.
Proof.
  destruct sessions_open_before_close as [G U].
  assert (Hoff : forall w w',
             utcoffset eastern_2021 w' - utcoffset eastern_2021 w < 1439).
  { intros w w'. unfold eastern_2021. cbn [utcoffset].
    destruct (_ && _), (_ && _); lia. }
  destruct (U eastern_2021 (fun w => w <? 5)
              (AdHoc (to_datetime ["2021-01-01"%string]))
              (AdHoc (to_datetime ["2021-04-02"%string]))
              (AdHoc (to_datetime ["2021-12-24"%string])) Hoff) as [_ B].
  destruct (holiday_set
              (regular_holidays
                 (QuantopianUSFuturesCalendar eastern_2021 (fun w => w <? 5)
                    (AdHoc (to_datetime ["2021-01-01"%string]))
                    (AdHoc (to_datetime ["2021-04-02"%string]))
                    (AdHoc (to_datetime ["2021-12-24"%string])))
               ++ [AdHoc
                     (adhoc_holidays
                        (QuantopianUSFuturesCalendar eastern_2021
                           (fun w => w <? 5)
                           (AdHoc (to_datetime ["2021-01-01"%string]))
                           (AdHoc (to_datetime ["2021-04-02"%string]))
                           (AdHoc (to_datetime ["2021-12-24"%string]))))])
              (Timestamp_of_iso "2021-03-11") (Timestamp_of_iso "2021-03-16"))
    as [holidays|e] eqn:Hh; [|vm_compute in Hh; discriminate Hh].
  destruct (B _ _ holidays Hh) as [idx E].
  exists idx. split; [exact E|]. split.
  - vm_compute in E. injection E as <-. vm_compute. reflexivity.
  - exact (G _ _ _ idx E).
Defined.

(** ** The lazily rendered message of CalendarError *)

Lemma message_cached self h s :
  message_cache h !! self = Some s -> message self h = (Ok s, h).
Proof. intros C. unfold message, lazyval. now rewrite C. Qed.

Lemma step_keeps_cache a self h s :
  message_cache h !! self = Some s -> message_cache (step a h) !! self = Some s.
Proof.
  intros C. destruct a as [cls_msg kw|other|other|other key value]; cbn [step].
  - exact C.
  - unfold message, lazyval.
    destruct (message_cache h !! other) as [v|] eqn:O; [exact C|].
    destruct (CalendarError_str other h) as [v|e]; [|exact C].
    cbn [snd message_cache].
    destruct (decide (other = self)) as [->|N]; [congruence|].
    now rewrite lookup_insert_ne.
  - exact C.
  - destruct (objects h !! other); exact C.
Qed.

Lemma run_keeps_cache actions self h s :
  message_cache h !! self = Some s ->
  message_cache (run actions h) !! self = Some s.
Proof.
  revert h. induction actions as [|a actions IH]; intros h C; [exact C|].
  unfold run. cbn [fold_left]. apply IH. now apply step_keeps_cache.
Qed.

Lemma message_first_access self h r h' :
  message_cache h !! self = None -> message self h = (r, h') ->
  r = CalendarError_str self h
  /\ match r with
     | Ok s => message_cache h' !! self = Some s /\ objects h' = objects h
     | Raise _ => h' = h
     end.
Proof.
  intros C. unfold message, lazyval. rewrite C.
  destruct (CalendarError_str self h) as [v|e]; intros [= <- <-].
  - split; [reflexivity|]. cbn [message_cache objects].
    split; [apply lookup_insert_eq | reflexivity].
  - split; reflexivity.
Qed.

(** C8.  Creating an error value renders nothing: no message is cached for
    it.  The message is rendered by [__str__] at the first access that finds
    none cached, and from an access that returned a message on, whatever is
    done to error values in between (creating others, reading messages,
    calling [str], assigning into [kwargs]), every access returns that same
    string and leaves the heap as it is. *)
Theorem message_is_lazy_and_cached (h : Heap) (cls_msg : option string)
  (kw : gmap string string) :
  heap_wf h ->
  let self := fst (CalendarError_init cls_msg kw h) in
  let h1 := snd (CalendarError_init cls_msg kw h) in
  message_cache h1 !! self = None
  /\ objects h1 !! self = Some (mkCalendarError cls_msg kw)
  /\ forall before s h2,
       message self (run before h1) = (Ok s, h2) ->
       (message_cache (run before h1) !! self = None ->
        CalendarError_str self (run before h1) = Ok s)
       /\ forall after,
            message self (run after h2) = (Ok s, run after h2).
Proof.
  intros Wf self h1. subst self h1. cbn [CalendarError_init fst snd].
  cbn [message_cache objects].
  split; [apply (Wf (next_id h)); lia|].
  split; [apply lookup_insert_eq|].
  intros before s h2 M. split.
  - intros C. destruct (message_first_access _ _ _ _ C M) as [E _].
    now symmetry.
  - intros after. apply message_cached. apply run_keeps_cache.
    destruct (message_cache (run before
                 {| objects := <[next_id h:=mkCalendarError cls_msg kw]> (objects h);
                    message_cache := message_cache h;
                    next_id := S (next_id h) |}) !! next_id h) as [v|] eqn:C.
    + rewrite (message_cached _ _ _ C) in M. now injection M as <- <-.
    + destruct (message_first_access _ _ _ _ C M) as [_ [C' _]]. exact C'.
Qed.

(** An [InvalidCalendarName] for XNYS: nothing is cached when it is created;
    its message is rendered at the first access; after its keyword is
    overwritten, another error is created and that one's message is asked
    for (which raises, the base class having no template), [str] renders the
    new keyword while [message] still returns the first rendering. *)
Lemma message_is_lazy_and_cached_witness :
  let e := CalendarError_init (Some InvalidCalendarName_msg)
             {[ "calendar_name"%string := "XNYS"%string ]} empty_heap in
  let h2 := snd (message (fst e) (snd e)) in
  let h3 := run [ SetKwarg (fst e) "calendar_name" "XTAI";
                  New None ∅;
                  GetMessage 1%nat ] h2 in
  message_cache (snd e) !! fst e = None
  /\ fst (message (fst e) (snd e))
     = Ok "The requested ExchangeCalendar, XNYS, does not exist."%string
  /\ CalendarError_str (fst e) h3
     = Ok "The requested ExchangeCalendar, XTAI, does not exist."%string
  /\ fst (message 1%nat h3) = Raise AttributeError
  /\ message (fst e) h3
     = (Ok "The requested ExchangeCalendar, XNYS, does not exist."%string, h3).
Proof.
  cbv zeta.
  assert (Wf : heap_wf empty_heap).
  { intros i _. split; apply lookup_empty. }
  destruct (message_is_lazy_and_cached empty_heap (Some InvalidCalendarName_msg)
              {[ "calendar_name"%string := "XNYS"%string ]} Wf)
    as (C0 & _ & H).
  split; [exact C0|].
  assert (F : fst (message
                     (fst (CalendarError_init (Some InvalidCalendarName_msg)
                             {[ "calendar_name"%string := "XNYS"%string ]}
                             empty_heap))
                     (snd (CalendarError_init (Some InvalidCalendarName_msg)
                             {[ "calendar_name"%string := "XNYS"%string ]}
                             empty_heap)))
              = Ok "The requested ExchangeCalendar, XNYS, does not exist."%string)
    by (vm_compute; reflexivity).
  split; [exact F|].
  split; [vm_compute; reflexivity|].
  split; [vm_compute; reflexivity|].
  apply (H [] _ _). cbn [run fold_left]. rewrite <- F. apply surjective_pairing.
Defined.

(** * Further properties of the observances *)

(** ** Where the weekend make-up lands *)

Lemma weekday_after_sunday d : weekday d = SUNDAY -> weekday (d + 1) = MONDAY.
Proof.
  unfold weekday, SUNDAY, MONDAY. intros W. Z.div_mod_to_equations. lia.
Qed.

Lemma weekday_before_saturday d :
  weekday d = SATURDAY -> weekday (d - 1) = FRIDAY.
Proof.
  unfold weekday, SATURDAY, FRIDAY. intros W. Z.div_mod_to_equations. lia.
Qed.

Lemma weekend_makeup_fixes_workdays r :
  weekday r < SATURDAY -> weekend_makeup r = Ok r.
Proof.
  unfold weekend_makeup, SATURDAY, SUNDAY. intros W.
  destruct (dt_year r <? 2014); [reflexivity|].
  destruct (Z.eqb_spec (weekday r) 6) as [E|_]; [lia|].
  destruct (Z.eqb_spec (weekday r) 5) as [E|_]; [lia|]. reflexivity.
Qed.

Lemma weekend_makeup_result (d : datetime) :
  representable d ->
  exists r, weekend_makeup d = Ok r
    /\ representable r
    /\ -1 <= r - d <= 1
    /\ (2014 <= dt_year d -> weekday r < SATURDAY)
    /\ weekend_makeup r = Ok r.
Proof.
  intros R. unfold weekend_makeup at 1.
  destruct (Z.ltb_spec (dt_year d) 2014) as [Y|Y].
  - exists d. repeat split; try lia; try apply R.
    unfold weekend_makeup. apply Z.ltb_lt in Y. now rewrite Y.
  - destruct (Z.eqb_spec (weekday d) SUNDAY) as [W|W].
    + pose proof (sunday_has_a_tomorrow d R W) as R'.
      rewrite (add_days_ok d ONE_DAY R'). exists (d + ONE_DAY).
      pose proof (weekday_after_sunday d W) as W'.
      unfold ONE_DAY in *.
      repeat split; try apply R'; try lia.
      * intros _. rewrite W'. unfold MONDAY, SATURDAY. lia.
      * apply weekend_makeup_fixes_workdays. rewrite W'.
        unfold MONDAY, SATURDAY. lia.
    + destruct (Z.eqb_spec (weekday d) SATURDAY) as [W2|W2].
      * pose proof (saturday_has_a_yesterday d R W2) as R'.
        rewrite (add_days_ok d (- ONE_DAY) R').
        change (d + - ONE_DAY) with (d - 1). exists (d - 1).
        pose proof (weekday_before_saturday d W2) as W'.
        repeat split; try apply R'; try lia.
        -- intros _. rewrite W'. unfold FRIDAY, SATURDAY. lia.
        -- apply weekend_makeup_fixes_workdays. rewrite W'.
           unfold FRIDAY, SATURDAY. lia.
      * exists d. pose proof (Z.mod_pos_bound (d + 6) 7 ltac:(lia)) as B.
        assert (Wd : weekday d < SATURDAY)
          by (unfold weekday, SATURDAY, SUNDAY in *; lia).
        repeat split; try apply R; try lia.
        now apply weekend_makeup_fixes_workdays.
Qed.

(** On every date a datetime can hold, [weekend_makeup] returns a date at
    most one day away; from 2014 on that date is a Monday to Friday, a Sunday
    going to the Monday and a Saturday to the Friday; and applying the
    observance to its own result changes nothing. *)
Theorem weekend_makeup_lands_on_workday (d : datetime) :
  representable d ->
  exists r, weekend_makeup d = Ok r
    /\ representable r
    /\ -1 <= r - d <= 1
    /\ (2014 <= dt_year d -> weekday r < SATURDAY)
    /\ weekend_makeup r = Ok r.
Proof. exact (weekend_makeup_result d). Qed.

(** Sunday 2023-01-01 is made up on Monday 2023-01-02. *)
Lemma weekend_makeup_lands_on_workday_witness :
  weekend_makeup (ymd2ord 2023 1 1) = Ok (ymd2ord 2023 1 2)
  /\ weekday (ymd2ord 2023 1 2) = MONDAY.
Proof.
  assert (R : representable (ymd2ord 2023 1 1)).
  { unfold representable. vm_compute. split; discriminate. }
  destruct (weekend_makeup_lands_on_workday (ymd2ord 2023 1 1) R)
    as (r & E & _ & _ & _ & _).
  split; [|reflexivity]. rewrite E. vm_compute in E. injection E as <-.
  reflexivity.
Defined.

(** ** Labour Day's observance against the weekend make-up *)

Lemma rmap_ext {A B} (f g : A -> result B) (l : list A) :
  (forall x, In x l -> f x = g x) -> rmap f l = rmap g l.
Proof.
  induction l as [|a l IH]; intros H; [reflexivity|].
  cbn [rmap]. rewrite (H a (or_introl eq_refl)).
  rewrite IH; [reflexivity|]. intros x Hx. apply H. now right.
Qed.

(** [nearest_workday_2013_thr_2023], the observance of Labour Day and of the
    lunisolar festivals, does exactly what [weekend_makeup] does on every date
    before 2024, raising included; from 2024 on it leaves every date where it
    is, weekends too.  So the two list observances agree on tables that end
    before 2024. *)
Theorem nearest_workday_2013_thr_2023_vs_weekend_makeup :
  (forall d, dt_year d < 2024 ->
     nearest_workday_2013_thr_2023 d = weekend_makeup d)
  /\ (forall d, 2024 <= dt_year d -> nearest_workday_2013_thr_2023 d = Ok d)
  /\ (forall holidays,
        Forall (fun d => dt_year d < 2024) holidays ->
        manual_nearest_workday_2013_thr_2023 holidays
        = holidays_weekend_makeup holidays).
Proof.
  assert (P : forall d, dt_year d < 2024 ->
                nearest_workday_2013_thr_2023 d = weekend_makeup d).
  { intros d Y. unfold nearest_workday_2013_thr_2023, weekend_makeup,
      nearest_workday, SUNDAY, SATURDAY, ONE_DAY.
    rewrite !Z.gtb_ltb. apply Z.ltb_lt in Y. rewrite Y. cbn [andb].
    destruct (Z.ltb_spec 2013 (dt_year d)) as [Y'|Y'];
      destruct (Z.ltb_spec (dt_year d) 2014) as [Y2|Y2]; try lia;
      try reflexivity.
    destruct (Z.eqb_spec (weekday d) 5) as [W5|W5];
      destruct (Z.eqb_spec (weekday d) 6) as [W6|W6]; try lia; reflexivity. }
  split; [exact P|]. split.
  - intros d Y. unfold nearest_workday_2013_thr_2023. rewrite !Z.gtb_ltb.
    destruct (Z.ltb_spec (dt_year d) 2024) as [Y'|Y']; [lia|]. reflexivity.
  - intros holidays H.
    unfold manual_nearest_workday_2013_thr_2023, holidays_weekend_makeup.
    apply rmap_ext. intros x Hx. apply P.
    rewrite List.Forall_forall in H. now apply H.
Qed.

(** Labour Day fell on a Sunday in 2022 and on a Saturday in 2027. *)
Lemma nearest_workday_2013_thr_2023_vs_weekend_makeup_witness :
  nearest_workday_2013_thr_2023 (ymd2ord 2022 5 1) = Ok (ymd2ord 2022 5 2)
  /\ nearest_workday_2013_thr_2023 (ymd2ord 2027 5 1) = Ok (ymd2ord 2027 5 1)
  /\ weekend_makeup (ymd2ord 2027 5 1) = Ok (ymd2ord 2027 4 30).
Proof.
  destruct nearest_workday_2013_thr_2023_vs_weekend_makeup as (P & Q & _).
  split; [|split].
  - rewrite (P (ymd2ord 2022 5 1)); [reflexivity | vm_compute; reflexivity].
  - apply (Q (ymd2ord 2027 5 1)). vm_compute. discriminate.
  - reflexivity.
Defined.

(** ** When the bridging observances fire *)

(** The two bridges never fire on the same date: the Monday bridge fires only
    on a Tuesday and gives the day before, the Friday bridge only on a
    Thursday and gives the day after; in both cases the guard was asked about
    the bridging date, and the weekend make-up leaves the holiday itself where
    it is. *)
Theorem bridges_are_exclusive (d : datetime) (c1 c2 : datetime -> bool) :
  (forall b, bridge_mon d c1 = Ok (Some b) ->
     b = d - 1 /\ weekday d = TUESDAY /\ c1 b = true
     /\ weekend_makeup d = Ok d)
  /\ (forall b, bridge_fri d c2 = Ok (Some b) ->
     b = d + 1 /\ weekday d = THURSDAY /\ c2 b = true
     /\ weekend_makeup d = Ok d)
  /\ ~ ((exists b, bridge_mon d c1 = Ok (Some b))
        /\ (exists b, bridge_fri d c2 = Ok (Some b))).
Proof.
  assert (M : forall b, bridge_mon d c1 = Ok (Some b) ->
                b = d - 1 /\ weekday d = TUESDAY /\ c1 b = true
                /\ weekend_makeup d = Ok d).
  { intros b H. destruct (bridge_mon_fires d c1 b H) as [-> W].
    split; [reflexivity|]. split; [exact W|]. split.
    - unfold bridge_mon in H.
      destruct (add_days d (- ONE_DAY)) as [p|] eqn:A; [|discriminate H].
      apply add_days_inv in A as [-> _]. cbn [rbind] in H.
      change (d + - ONE_DAY) with (d - 1) in H.
      destruct (weekday (d - 1) =? MONDAY); [|discriminate H].
      destruct (c1 (d - 1)); [reflexivity | discriminate H].
    - apply weekend_makeup_fixes_workdays. rewrite W. reflexivity. }
  assert (F : forall b, bridge_fri d c2 = Ok (Some b) ->
                b = d + 1 /\ weekday d = THURSDAY /\ c2 b = true
                /\ weekend_makeup d = Ok d).
  { intros b H. destruct (bridge_fri_fires d c2 b H) as [-> W].
    split; [reflexivity|]. split; [exact W|]. split.
    - unfold bridge_fri in H.
      destruct (add_days d ONE_DAY) as [p|] eqn:A; [|discriminate H].
      apply add_days_inv in A as [-> _]. cbn [rbind] in H.
      change (d + ONE_DAY) with (d + 1) in H.
      destruct (weekday (d + 1) =? FRIDAY); [|discriminate H].
      destruct (c2 (d + 1)); [reflexivity | discriminate H].
    - apply weekend_makeup_fixes_workdays. rewrite W. reflexivity. }
  split; [exact M|]. split; [exact F|].
  intros [[b1 H1] [b2 H2]].
  destruct (M b1 H1) as (_ & W1 & _). destruct (F b2 H2) as (_ & W2 & _).
  rewrite W1 in W2. discriminate W2.
Qed.

(** National Day of 2019 was a Thursday: the Friday bridge fires, the Monday
    bridge does not. *)
Lemma bridges_are_exclusive_witness :
  bridge_fri_2014_thr_2023 (ymd2ord 2019 10 10) = Ok (Some (ymd2ord 2019 10 11))
  /\ weekday (ymd2ord 2019 10 10) = THURSDAY
  /\ bridge_mon_2014_thr_2023 (ymd2ord 2019 10 10) = Ok None.
Proof.
  destruct (bridges_are_exclusive (ymd2ord 2019 10 10) check_between_2013_2024
              check_between_2013_2024) as (_ & F & _).
  assert (E : bridge_fri (ymd2ord 2019 10 10) check_between_2013_2024
              = Ok (Some (ymd2ord 2019 10 11))) by (vm_compute; reflexivity).
  destruct (F _ E) as (_ & W & _).
  split; [exact E|]. split; [exact W|]. vm_compute. reflexivity.
Defined.

(** The rules with the guard of 2014 to 2023 bridge only where the default
    guard would bridge as well, and on the same date; their bridging date lies
    in 2014 to 2023, and from 2024 on they give no date. *)
Theorem bridges_2014_thr_2023_restrict (d : datetime) :
  (forall b, bridge_mon_2014_thr_2023 d = Ok (Some b) ->
     bridge_mon d check_after_2013 = Ok (Some b) /\ 2013 < dt_year b < 2024)
  /\ (forall b, bridge_fri_2014_thr_2023 d = Ok (Some b) ->
     bridge_fri d check_after_2013 = Ok (Some b) /\ 2013 < dt_year b < 2024)
  /\ (representable (d - 1) -> 2024 <= dt_year (d - 1) ->
      bridge_mon_2014_thr_2023 d = Ok None)
  /\ (representable (d + 1) -> 2024 <= dt_year (d + 1) ->
      bridge_fri_2014_thr_2023 d = Ok None).
Proof.
  unfold bridge_mon_2014_thr_2023, bridge_fri_2014_thr_2023.
  split; [|split; [|split]].
  - intros b H. unfold bridge_mon in *.
    destruct (add_days d (- ONE_DAY)) as [p|]; [|discriminate H].
    cbn [rbind] in *. destruct (weekday p =? MONDAY); [|discriminate H].
    destruct (check_between_2013_2024 p) eqn:C; [|discriminate H].
    injection H as <-. apply check_between_2013_2024_spec in C.
    assert (C' : check_after_2013 p = true)
      by (apply check_after_2013_spec; lia).
    rewrite C'. split; [reflexivity | exact C].
  - intros b H. unfold bridge_fri in *.
    destruct (add_days d ONE_DAY) as [p|]; [|discriminate H].
    cbn [rbind] in *. destruct (weekday p =? FRIDAY); [|discriminate H].
    destruct (check_between_2013_2024 p) eqn:C; [|discriminate H].
    injection H as <-. apply check_between_2013_2024_spec in C.
    assert (C' : check_after_2013 p = true)
      by (apply check_after_2013_spec; lia).
    rewrite C'. split; [reflexivity | exact C].
  - intros R Y. unfold bridge_mon. rewrite (add_days_ok d (- ONE_DAY) R).
    cbn [rbind]. change (d + - ONE_DAY) with (d - 1).
    destruct (check_between_2013_2024 (d - 1)) eqn:C.
    + apply check_between_2013_2024_spec in C. lia.
    + now rewrite andb_false_r.
  - intros R Y. unfold bridge_fri. rewrite (add_days_ok d ONE_DAY R).
    cbn [rbind]. change (d + ONE_DAY) with (d + 1).
    destruct (check_between_2013_2024 (d + 1)) eqn:C.
    + apply check_between_2013_2024_spec in C. lia.
    + now rewrite andb_false_r.
Qed.

(** Peace Memorial Day was a Tuesday in 2017 and a Thursday in 2030. *)
Lemma bridges_2014_thr_2023_restrict_witness :
  bridge_mon (ymd2ord 2017 2 28) check_after_2013 = Ok (Some (ymd2ord 2017 2 27))
  /\ bridge_fri_2014_thr_2023 (ymd2ord 2030 2 28) = Ok None
  /\ bridge_fri (ymd2ord 2030 2 28) check_after_2013
     = Ok (Some (ymd2ord 2030 3 1)).
Proof.
  split; [|split].
  - destruct (bridges_2014_thr_2023_restrict (ymd2ord 2017 2 28))
      as (M & _ & _ & _).
    apply (M (ymd2ord 2017 2 27)). vm_compute. reflexivity.
  - destruct (bridges_2014_thr_2023_restrict (ymd2ord 2030 2 28))
      as (_ & _ & _ & F).
    apply F; [unfold representable; vm_compute; split; discriminate|].
    vm_compute. discriminate.
  - vm_compute. reflexivity.
Defined.

(** ** The years in which the configured bridges fire *)

Lemma dt_year_in_year y k :
  0 < k <= 365 + (if is_leap y then 1 else 0) ->
  dt_year (days_before_year y + k) = y.
Proof.
  intros H. apply dt_year_unique. pose proof (days_in_year y) as L. lia.
Qed.

Lemma dt_year_eve y : dt_year (days_before_year y) = y - 1.
Proof.
  apply dt_year_unique. pose proof (days_in_year (y - 1)) as L.
  replace (y - 1 + 1) with y in * by lia. destruct (is_leap (y - 1)); lia.
Qed.

Lemma year_representable n :
  MINYEAR <= dt_year n <= MAXYEAR -> representable n.
Proof. apply representable_year. Qed.

Lemma tuesday_follows_monday a :
  (weekday (a - 1) =? MONDAY) = (weekday a =? TUESDAY).
Proof.
  unfold weekday, MONDAY, TUESDAY.
  destruct (Z.eqb_spec ((a - 1 + 6) mod 7) 0) as [E|E];
    destruct (Z.eqb_spec ((a + 6) mod 7) 1) as [E'|E']; try reflexivity;
    exfalso; Z.div_mod_to_equations; lia.
Qed.

Lemma friday_follows_thursday a :
  (weekday (a + 1) =? FRIDAY) = (weekday a =? THURSDAY).
Proof.
  unfold weekday, FRIDAY, THURSDAY.
  destruct (Z.eqb_spec ((a + 1 + 6) mod 7) 4) as [E|E];
    destruct (Z.eqb_spec ((a + 6) mod 7) 3) as [E'|E']; try reflexivity;
    exfalso; Z.div_mod_to_equations; lia.
Qed.

Lemma new_years_day_ordinal y : ymd2ord y 1 1 = days_before_year y + 1.
Proof.
  unfold ymd2ord, days_before_month. change (1 >? 2) with false.
  cbn [andb DAYS_BEFORE_MONTH]. lia.
Qed.

Lemma new_years_eve_ordinal y : ymd2ord (y - 1) 12 31 = days_before_year y.
Proof.
  unfold ymd2ord, days_before_month. change (12 >? 2) with true.
  cbn [andb DAYS_BEFORE_MONTH]. pose proof (days_in_year (y - 1)) as L.
  replace (y - 1 + 1) with y in L by lia. destruct (is_leap (y - 1)); lia.
Qed.

(** The bridges of New Year's Day ask the guard "after 2013" about the
    bridging date, and the Monday before January 1 is December 31 of the year
    before: New Year's Day of year [y] gets its Monday bridge when it is a
    Tuesday and [y] is 2015 or later, its Friday bridge (January 2) when it is
    a Thursday and [y] is 2014 or later, and no bridging date otherwise. *)
Theorem new_years_day_bridges (y : Z) :
  MINYEAR < y <= MAXYEAR ->
  observance NewYearsDayExtraMon (ymd2ord y 1 1)
  = Ok (if (weekday (ymd2ord y 1 1) =? TUESDAY) && (2014 <? y)
        then Some (ymd2ord (y - 1) 12 31) else None)
  /\ observance NewYearsDayExtraFri (ymd2ord y 1 1)
     = Ok (if (weekday (ymd2ord y 1 1) =? THURSDAY) && (2013 <? y)
           then Some (ymd2ord y 1 2) else None).
Proof.
  unfold MINYEAR, MAXYEAR. intros Hy.
  cbn [observance NewYearsDayExtraMon NewYearsDayExtraFri new_years_day].
  pose proof (new_years_day_ordinal y) as Ea.
  pose proof (new_years_eve_ordinal y) as Ee.
  assert (E2 : ymd2ord y 1 2 = ymd2ord y 1 1 + 1)
    by exact (ymd2ord_day y 1 1 1).
  assert (Yp : dt_year (ymd2ord y 1 1 - 1) = y - 1).
  { rewrite Ea. replace (days_before_year y + 1 - 1) with (days_before_year y)
      by lia. apply dt_year_eve. }
  assert (Yn : dt_year (ymd2ord y 1 1 + 1) = y).
  { rewrite Ea. replace (days_before_year y + 1 + 1)
      with (days_before_year y + 2) by lia.
    apply dt_year_in_year. destruct (is_leap y); lia. }
  split.
  - unfold bridge_mon.
    rewrite (add_days_ok (ymd2ord y 1 1) (- ONE_DAY))
      by (apply year_representable; change (ymd2ord y 1 1 + - ONE_DAY)
            with (ymd2ord y 1 1 - 1); rewrite Yp;
          unfold MINYEAR, MAXYEAR; lia).
    cbn [rbind]. change (ymd2ord y 1 1 + - ONE_DAY) with (ymd2ord y 1 1 - 1).
    rewrite tuesday_follows_monday. unfold check_after_2013. rewrite Yp.
    replace (y - 1 >? 2013) with (2014 <? y)
      by (rewrite Z.gtb_ltb;
          destruct (Z.ltb_spec 2014 y), (Z.ltb_spec 2013 (y - 1));
          try reflexivity; lia).
    replace (ymd2ord y 1 1 - 1) with (ymd2ord (y - 1) 12 31) by lia.
    reflexivity.
  - unfold bridge_fri.
    rewrite (add_days_ok (ymd2ord y 1 1) ONE_DAY)
      by (apply year_representable; change (ymd2ord y 1 1 + ONE_DAY)
            with (ymd2ord y 1 1 + 1); rewrite Yn;
          unfold MINYEAR, MAXYEAR; lia).
    cbn [rbind]. change (ymd2ord y 1 1 + ONE_DAY) with (ymd2ord y 1 1 + 1).
    rewrite friday_follows_thursday. unfold check_after_2013. rewrite Yn.
    rewrite Z.gtb_ltb, <- E2. reflexivity.
Qed.

(** New Year's Day was a Tuesday in 2019, bridged on Monday 2018-12-31, and a
    Thursday in 2015, bridged on Friday 2015-01-02. *)
Lemma new_years_day_bridges_witness :
  observance NewYearsDayExtraMon (ymd2ord 2019 1 1)
  = Ok (Some (ymd2ord 2018 12 31))
  /\ observance NewYearsDayExtraFri (ymd2ord 2015 1 1)
     = Ok (Some (ymd2ord 2015 1 2)).
Proof.
  split.
  - destruct (new_years_day_bridges 2019) as [M _];
      [unfold MINYEAR, MAXYEAR; lia|]. exact M.
  - destruct (new_years_day_bridges 2015) as [_ F];
      [unfold MINYEAR, MAXYEAR; lia|]. exact F.
Defined.

Lemma dated_anchor_years base mon fri y :
  In (base, mon, fri) XTAI_dated_bridges ->
  dt_year (ymd2ord y (month base) (day base) - 1) = y
  /\ dt_year (ymd2ord y (month base) (day base) + 1) = y
  /\ observance mon = bridge_mon_2014_thr_2023
  /\ observance fri = bridge_fri_2014_thr_2023
  /\ month mon = month base /\ day mon = day base
  /\ month fri = month base /\ day fri = day base.
Proof.
  intros H. unfold XTAI_dated_bridges in H. cbn [In] in H.
  repeat (destruct H as [[= <- <- <-]|H]); try destruct H;
    cbn [month day PeaceMemorialDay WomenAndChildrensDay NationalDay];
    (split; [|split; [|repeat split]]);
    unfold ymd2ord, days_before_month;
    change (2 >? 2) with false; change (4 >? 2) with true;
    change (10 >? 2) with true;
    cbn [andb DAYS_BEFORE_MONTH];
    match goal with
    | |- dt_year (?b + ?m + ?d - 1) = _ =>
        replace (b + m + d - 1) with (b + (m + d - 1)) by lia
    | |- dt_year (?b + ?m + ?d + 1) = _ =>
        replace (b + m + d + 1) with (b + (m + d + 1)) by lia
    end;
    apply dt_year_in_year; destruct (is_leap y); lia.
Qed.

(** Peace Memorial Day, Women and Children's Day and National Day ask the
    guard of 2014 to 2023 about a bridging date of their own year: the holiday
    of year [y] gets its Monday bridge when it is a Tuesday and its Friday
    bridge when it is a Thursday, in the years 2014 to 2023 only. *)
Theorem dated_holiday_bridges (base mon fri : Holiday) (y : Z) :
  In (base, mon, fri) XTAI_dated_bridges ->
  MINYEAR <= y <= MAXYEAR ->
  let a := ymd2ord y (month base) (day base) in
  observance mon a
  = Ok (if (weekday a =? TUESDAY) && ((2013 <? y) && (y <? 2024))
        then Some (a - 1) else None)
  /\ observance fri a
     = Ok (if (weekday a =? THURSDAY) && ((2013 <? y) && (y <? 2024))
           then Some (a + 1) else None).
Proof.
  intros Hin Hy a.
  destruct (dated_anchor_years base mon fri y Hin)
    as (Yp & Yn & -> & -> & _).
  fold a in Yp, Yn.
  unfold bridge_mon_2014_thr_2023, bridge_fri_2014_thr_2023.
  split.
  - unfold bridge_mon.
    rewrite (add_days_ok a (- ONE_DAY))
      by (apply year_representable; change (a + - ONE_DAY) with (a - 1);
          now rewrite Yp).
    cbn [rbind]. change (a + - ONE_DAY) with (a - 1).
    rewrite tuesday_follows_monday. unfold check_between_2013_2024.
    rewrite Yp, !Z.gtb_ltb, (andb_comm (y <? 2024)). reflexivity.
  - unfold bridge_fri.
    rewrite (add_days_ok a ONE_DAY)
      by (apply year_representable; change (a + ONE_DAY) with (a + 1);
          now rewrite Yn).
    cbn [rbind]. change (a + ONE_DAY) with (a + 1).
    rewrite friday_follows_thursday. unfold check_between_2013_2024.
    rewrite Yn, !Z.gtb_ltb, (andb_comm (y <? 2024)). reflexivity.
Qed.

(** Women and Children's Day was a Tuesday in 2017: Monday 2017-04-03 is
    bridged.  It is a Thursday in 2024, outside the guard. *)
Lemma dated_holiday_bridges_witness :
  observance WomenAndChildrensDayExtraMon (ymd2ord 2017 4 4)
  = Ok (Some (ymd2ord 2017 4 3))
  /\ observance WomenAndChildrensDayExtraFri (ymd2ord 2024 4 4) = Ok None.
Proof.
  split.
  - destruct (dated_holiday_bridges WomenAndChildrensDay
                WomenAndChildrensDayExtraMon WomenAndChildrensDayExtraFri 2017)
      as [M _]; [cbn; tauto | unfold MINYEAR, MAXYEAR; lia |]. exact M.
  - destruct (dated_holiday_bridges WomenAndChildrensDay
                WomenAndChildrensDayExtraMon WomenAndChildrensDayExtraFri 2024)
      as [_ F]; [cbn; tauto | unfold MINYEAR, MAXYEAR; lia |]. exact F.
Defined.

(** ** The four-day-weekend extras of the lunisolar festivals *)

Lemma rmap_pure {A B} (f : A -> result B) (g : A -> B) (l : list A) :
  (forall x, In x l -> f x = Ok (g x)) -> rmap f l = Ok (List.map g l).
Proof.
  induction l as [|a l IH]; intros H; [reflexivity|].
  cbn [rmap List.map]. rewrite (H a (or_introl eq_refl)). cbn [rbind].
  rewrite IH; [reflexivity|]. intros x Hx. apply H. now right.
Qed.

Lemma thursday_has_a_tomorrow d :
  representable d -> weekday d = THURSDAY -> representable (d + 1).
Proof.
  unfold representable, weekday, THURSDAY, MAXORDINAL.
  intros H W. Z.div_mod_to_equations. lia.
Qed.

Lemma tuesday_has_a_yesterday d :
  representable d -> weekday d = TUESDAY -> representable (d - 1).
Proof.
  unfold representable, weekday, TUESDAY, MAXORDINAL.
  intros H W. Z.div_mod_to_equations. lia.
Qed.

(** On dates a datetime can hold, [manual_extra_days_07_thr_2023] never
    raises, and a date is in its result exactly when it is the day after a
    Thursday of the input or the day before a Tuesday of the input, that input
    date being of the years 2007 to 2023.  So every date of the result is a
    Friday or a Monday, and an input with no such Thursday or Tuesday gives
    no date. *)
Theorem manual_extra_days_07_thr_2023_spec (holidays : list datetime) :
  Forall representable holidays ->
  exists extras,
    manual_extra_days_07_thr_2023 holidays = Ok extras
    /\ (forall x, In x extras <->
          exists d, In d holidays /\ 2006 < dt_year d < 2024
                    /\ ((weekday d = THURSDAY /\ x = d + 1)
                        \/ (weekday d = TUESDAY /\ x = d - 1)))
    /\ (forall x, In x extras -> weekday x = FRIDAY \/ weekday x = MONDAY).
Proof.
  intros R. rewrite List.Forall_forall in R.
  unfold manual_extra_days_07_thr_2023.
  set (thu := List.filter _ holidays). set (tue := List.filter _ holidays).
  assert (Ethu : rmap (fun d => add_days d ONE_DAY) thu
                 = Ok (List.map (fun d => d + 1) thu)).
  { apply rmap_pure. intros d Hd. subst thu. apply filter_In in Hd as [Hd C].
    apply andb_prop in C as [W _]. apply Z.eqb_eq in W.
    apply (add_days_ok d ONE_DAY). apply thursday_has_a_tomorrow; auto. }
  assert (Etue : rmap (fun d => add_days d (- ONE_DAY)) tue
                 = Ok (List.map (fun d => d - 1) tue)).
  { apply rmap_pure. intros d Hd. subst tue. apply filter_In in Hd as [Hd C].
    apply andb_prop in C as [W _]. apply Z.eqb_eq in W.
    apply (add_days_ok d (- ONE_DAY)). apply tuesday_has_a_yesterday; auto. }
  rewrite Ethu. cbn [rbind]. rewrite Etue. cbn [rbind].
  eexists. split; [reflexivity|].
  assert (Q : forall x,
             In x (List.map (fun d => d + 1) thu ++ List.map (fun d => d - 1) tue)
             <-> exists d, In d holidays /\ 2006 < dt_year d < 2024
                           /\ ((weekday d = THURSDAY /\ x = d + 1)
                               \/ (weekday d = TUESDAY /\ x = d - 1))).
  { intros x. rewrite in_app_iff, !in_map_iff. subst thu tue. split.
    - intros [(d & <- & Hd)|(d & <- & Hd)];
        apply filter_In in Hd as [Hd C];
        rewrite !andb_true_iff, !Z.gtb_ltb, !Z.ltb_lt, Z.eqb_eq in C;
        exists d; (split; [exact Hd|]); (split; [lia|]); [left|right];
        tauto.
    - intros (d & Hd & Y & [[W ->]|[W ->]]); [left|right]; exists d;
        (split; [reflexivity|]); apply filter_In; (split; [exact Hd|]);
        rewrite !andb_true_iff, !Z.gtb_ltb, !Z.ltb_lt, Z.eqb_eq; lia. }
  split; [exact Q|].
  intros x Hx. apply Q in Hx as (d & _ & _ & [[W ->]|[W ->]]).
  - left. rewrite <- Z.eqb_eq, friday_follows_thursday. now apply Z.eqb_eq.
  - right. rewrite <- Z.eqb_eq, tuesday_follows_monday. now apply Z.eqb_eq.
Qed.

(** The Dragon Boat Festival of 2018 and 2020 fell on Monday 2018-06-18 and
    Thursday 2020-06-25, the Mid-Autumn Festival of 2017 on Wednesday
    2017-10-04, and a Tuesday of 2024 is outside the years of the rule: the
    only extra day is Friday 2020-06-26. *)
Lemma manual_extra_days_07_thr_2023_spec_witness :
  manual_extra_days_07_thr_2023
    (to_datetime ["2018-06-18"; "2020-06-25"; "2017-10-04";
                  "2024-09-17"]%string)
  = Ok (to_datetime ["2020-06-26"%string]).
Proof.
  assert (R : Forall representable
                (to_datetime ["2018-06-18"; "2020-06-25"; "2017-10-04";
                              "2024-09-17"]%string)).
  { repeat constructor; vm_compute; discriminate. }
  destruct (manual_extra_days_07_thr_2023_spec _ R) as (extras & E & _).
  rewrite E. vm_compute in E. injection E as <-. reflexivity.
Defined.

(** ** The Chinese New Year cluster as five consecutive working days *)

Lemma roll_forward_first a : first_workday_from a (roll_forward a).
Proof.
  unfold first_workday_from. split; [apply roll_forward_bounds|].
  split; [apply roll_forward_weekday|]. intros z Hz. revert Hz.
  unfold roll_forward, weekday, SATURDAY, SUNDAY.
  destruct (Z.eqb_spec ((a + 6) mod 7) 5) as [E|E];
    [|destruct (Z.eqb_spec ((a + 6) mod 7) 6) as [E'|E']];
    intros Hz; Z.div_mod_to_equations; lia.
Qed.

Lemma roll_back_last a : last_workday_until a (roll_back a).
Proof.
  unfold last_workday_until. split; [apply roll_back_bounds|].
  split; [apply roll_back_weekday|]. intros z Hz. revert Hz.
  unfold roll_back, weekday, SATURDAY, SUNDAY.
  destruct (Z.eqb_spec ((a + 6) mod 7) 5) as [E|E];
    [|destruct (Z.eqb_spec ((a + 6) mod 7) 6) as [E'|E']];
    intros Hz; Z.div_mod_to_equations; lia.
Qed.

(** For anchors well inside the range of dates, the five Chinese New Year
    lists hold, position by position, five consecutive working days: the main
    day is the first Monday-to-Friday date on or after the festival, the two
    days after are the next two working days, the eve and the day before the
    eve are the two working days before the main day; nothing but weekend
    days lies between them. *)
Theorem chinese_new_year_cluster_is_consecutive (T : LunisolarTables) :
  Forall well_inside (chinese_lunar_new_year_dates T) ->
  exists eve2 eve main day2 day3 : datetime -> datetime,
    chinese_new_years_eve_2 T
      = Ok (List.map eve2 (chinese_lunar_new_year_dates T))
    /\ chinese_new_years_eve T
       = Ok (List.map eve (chinese_lunar_new_year_dates T))
    /\ chinese_new_year T
       = Ok (List.map main (chinese_lunar_new_year_dates T))
    /\ chinese_new_year_2 T
       = Ok (List.map day2 (chinese_lunar_new_year_dates T))
    /\ chinese_new_year_3 T
       = Ok (List.map day3 (chinese_lunar_new_year_dates T))
    /\ forall a,
         first_workday_from a (main a)
         /\ first_workday_from (main a + 1) (day2 a)
         /\ first_workday_from (day2 a + 1) (day3 a)
         /\ last_workday_until (main a - 1) (eve a)
         /\ last_workday_until (eve a - 1) (eve2 a)
         /\ eve2 a < eve a < main a /\ main a < day2 a < day3 a.
Proof.
  intros H.
  exists (fun a => roll_back (roll_back (roll_forward a + - ONE_DAY) + - ONE_DAY)),
         (fun a => roll_back (roll_forward a + - ONE_DAY)),
         roll_forward,
         (fun a => roll_forward (roll_forward a + ONE_DAY)),
         (fun a => roll_forward
                     (roll_forward (roll_forward a + ONE_DAY) + ONE_DAY)).
  split.
  { unfold chinese_new_years_eve_2. rewrite (chinese_new_years_eve_ok T H).
    cbn [rbind].
    assert (E : index_add_days
                  (List.map (fun a => roll_back (roll_forward a + - ONE_DAY))
                            (chinese_lunar_new_year_dates T)) (- ONE_DAY)
                = Ok (List.map
                        (fun a => roll_back (roll_forward a + - ONE_DAY)
                                  + - ONE_DAY)
                        (chinese_lunar_new_year_dates T))) by stage_step.
    rewrite E. cbn [rbind]. stage_step. }
  split; [exact (chinese_new_years_eve_ok T H)|].
  split; [exact (chinese_new_year_ok T H)|].
  split; [exact (chinese_new_year_2_ok T H)|].
  split.
  { unfold chinese_new_year_3. rewrite (chinese_new_year_2_ok T H).
    cbn [rbind].
    assert (E : index_add_days
                  (List.map (fun a => roll_forward (roll_forward a + ONE_DAY))
                            (chinese_lunar_new_year_dates T)) ONE_DAY
                = Ok (List.map
                        (fun a => roll_forward (roll_forward a + ONE_DAY) + ONE_DAY)
                        (chinese_lunar_new_year_dates T))) by stage_step.
    rewrite E. cbn [rbind]. stage_step. }
  intros a. cbv beta. rewrite !Z.add_opp_r. unfold ONE_DAY.
  pose proof (roll_forward_first a) as F1.
  pose proof (roll_forward_first (roll_forward a + 1)) as F2.
  pose proof (roll_forward_first (roll_forward (roll_forward a + 1) + 1)) as F3.
  pose proof (roll_back_last (roll_forward a - 1)) as B1.
  pose proof (roll_back_last (roll_back (roll_forward a - 1) - 1)) as B2.
  repeat (split; [assumption|]).
  unfold first_workday_from, last_workday_until in *. lia.
Qed.

(** The cluster of 2021, whose festival fell on Friday 2021-02-12. *)
Lemma chinese_new_year_cluster_is_consecutive_witness :
  let T := mkTables (to_datetime ["2021-02-12"%string]) [] [] [] in
  exists e2 e m d2 d3 : datetime,
    chinese_new_years_eve_2 T = Ok [e2]
    /\ chinese_new_years_eve T = Ok [e]
    /\ chinese_new_year T = Ok [m]
    /\ chinese_new_year_2 T = Ok [d2]
    /\ chinese_new_year_3 T = Ok [d3]
    /\ e2 < e < m /\ m < d2 < d3.
Proof.
  cbv zeta.
  assert (H : Forall well_inside
                (chinese_lunar_new_year_dates
                   (mkTables (to_datetime ["2021-02-12"%string]) [] [] []))).
  { constructor; [|constructor]. vm_compute. split; reflexivity. }
  destruct (chinese_new_year_cluster_is_consecutive _ H)
    as (eve2 & eve & main & day2 & day3 & E1 & E2 & E3 & E4 & E5 & P).
  exists (eve2 (Timestamp_of_iso "2021-02-12")),
         (eve (Timestamp_of_iso "2021-02-12")),
         (main (Timestamp_of_iso "2021-02-12")),
         (day2 (Timestamp_of_iso "2021-02-12")),
         (day3 (Timestamp_of_iso "2021-02-12")).
  rewrite E1, E2, E3, E4, E5.
  repeat (split; [reflexivity|]).
  apply (P (Timestamp_of_iso "2021-02-12")).
Defined.

(** ** The weekend make-up of a whole index *)

(** On dates a datetime can hold, [holidays_weekend_makeup] never raises and
    returns one date for each input date, in order, at most one day away from
    it and, for an input date of 2014 or later, on a Monday to Friday;
    applying it to its own result gives the result back. *)
Theorem holidays_weekend_makeup_spec (holidays : list datetime) :
  Forall representable holidays ->
  exists made_up,
    holidays_weekend_makeup holidays = Ok made_up
    /\ Forall2 (fun d r => -1 <= r - d <= 1
                           /\ (2014 <= dt_year d -> weekday r < SATURDAY))
               holidays made_up
    /\ holidays_weekend_makeup made_up = Ok made_up.
Proof.
  unfold holidays_weekend_makeup.
  induction 1 as [|d l R _ IH].
  - exists []. repeat split. constructor.
  - destruct (weekend_makeup_result d R) as (r & E & _ & B & W & I).
    destruct IH as (rs & Es & F & Is).
    exists (r :: rs). cbn [rmap]. rewrite E, I. cbn [rbind]. rewrite Es, Is.
    cbn [rbind]. repeat split; try reflexivity. constructor; [|exact F].
    split; [exact B | exact W].
Qed.

(** The Qingming festivals of 2021 (Sunday 2021-04-04), 2020 (Saturday
    2020-04-04) and 2012 (Wednesday 2012-04-04). *)
Lemma holidays_weekend_makeup_spec_witness :
  holidays_weekend_makeup
    (to_datetime ["2021-04-04"; "2020-04-04"; "2012-04-04"]%string)
  = Ok (to_datetime ["2021-04-05"; "2020-04-03"; "2012-04-04"]%string).
Proof.
  assert (R : Forall representable
                (to_datetime ["2021-04-04"; "2020-04-04"; "2012-04-04"]%string)).
  { repeat constructor; vm_compute; discriminate. }
  destruct (holidays_weekend_makeup_spec _ R) as (made_up & E & _ & _).
  rewrite E. vm_compute in E. injection E as <-. reflexivity.
Defined.

(** ** More on the extra working-day holiday of Tomb Sweeping Day *)

(** [evalute_tomb_sweeping_workday_extra] treats each festival date on its
    own: the result for two indexes one after the other is the two results
    one after the other, and it is never longer than the input.  The extra
    date of an April 4 falls on a weekend exactly when April 4 is a Sunday or
    a Monday. *)
Theorem evalute_tomb_sweeping_workday_extra_composes :
  (forall dt1 dt2,
     evalute_tomb_sweeping_workday_extra (dt1 ++ dt2)
     = evalute_tomb_sweeping_workday_extra dt1
       ++ evalute_tomb_sweeping_workday_extra dt2)
  /\ (forall dt,
        (List.length (evalute_tomb_sweeping_workday_extra dt)
         <= List.length dt)%nat)
  /\ (forall d x,
        on_april_4_after_2012 d = true ->
        In x (evalute_tomb_sweeping_workday_extra [d]) ->
        (SATURDAY <= weekday x <-> weekday d = SUNDAY \/ weekday d = MONDAY)).
Proof.
  assert (E : forall dt, evalute_tomb_sweeping_workday_extra dt
                         = flat_map tomb_sweeping_extra dt).
  { intros dt. unfold evalute_tomb_sweeping_workday_extra.
    now rewrite fold_tomb_sweeping_step. }
  split; [|split].
  - intros dt1 dt2. rewrite !E. apply flat_map_app.
  - intros dt. rewrite E. induction dt as [|d dt IH]; [cbn; lia|].
    cbn [flat_map]. rewrite List.length_app. cbn [List.length].
    unfold tomb_sweeping_extra at 1.
    destruct (on_april_4_after_2012 d); cbn [List.length]; lia.
  - intros d x Q Hx. rewrite E in Hx. cbn [flat_map] in Hx.
    rewrite app_nil_r in Hx. destruct (on_april_4 d Q) as (Ed & E5 & E3).
    unfold tomb_sweeping_extra in Hx. rewrite Q, Ed, E5, E3 in Hx.
    destruct (Z.eqb_spec (weekday d) THURSDAY) as [W|W];
      destruct Hx as [<-|[]]; revert W;
      unfold weekday, THURSDAY, SATURDAY, SUNDAY, MONDAY; intros W;
      split; intros H; Z.div_mod_to_equations; lia.
Qed.

(** April 4 of 2016 was a Monday: the extra date, April 3, is a Sunday. *)
Lemma evalute_tomb_sweeping_workday_extra_composes_witness :
  evalute_tomb_sweeping_workday_extra [Timestamp_of_iso "2016-04-04"]
  = [Timestamp_of_iso "2016-04-03"]
  /\ SATURDAY <= weekday (Timestamp_of_iso "2016-04-03").
Proof.
  destruct evalute_tomb_sweeping_workday_extra_composes as (_ & _ & W).
  split; [reflexivity|].
  apply (W (Timestamp_of_iso "2016-04-04") (Timestamp_of_iso "2016-04-03")).
  - reflexivity.
  - left. reflexivity.
  - right. reflexivity.
Defined.

(** ** The dates the calendar lists literally *)

(** The 67 dates listed literally as ad-hoc holidays (abnormal observances,
    typhoons, Chinese New Year extras) are all different, all fall on a Monday
    to Friday and all lie in the years 2002 to 2024. *)
Theorem XTAI_literal_dates_are_sane :
  List.length XTAI_literal_dates = 67%nat
  /\ NoDup XTAI_literal_dates
  /\ Forall (fun d => weekday d < SATURDAY /\ 2002 <= dt_year d <= 2024)
            XTAI_literal_dates.
Proof.
  split; [reflexivity|]. split.
  - apply (bool_decide_unpack _). vm_compute. reflexivity.
  - apply List.Forall_forall. intros d Hd.
    assert (C : forallb (fun d => (weekday d <? SATURDAY)
                                  && ((2002 <=? dt_year d) && (dt_year d <=? 2024)))
                        XTAI_literal_dates = true)
      by (vm_compute; reflexivity).
    rewrite forallb_forall in C. specialize (C d Hd).
    rewrite !andb_true_iff, Z.ltb_lt, !Z.leb_le in C. lia.
Qed.

(** * Further properties of the errors *)

Lemma CalendarError_str_of (h : Heap) (self : nat) (tpl : string)
  (kw : gmap string string) :
  objects h !! self = Some (mkCalendarError (Some tpl) kw) ->
  CalendarError_str self h = format tpl kw.
Proof. intros O. unfold CalendarError_str. now rewrite O. Qed.

(** [str] of an error of each class is the template of the class with the
    keywords the error was created with put in their places; keywords the
    template does not name are ignored. *)
Theorem CalendarError_str_renders (h : Heap) (self : nat)
  (kw : gmap string string) :
  (forall v,
     kw !! "calendar_name"%string = Some v ->
     (objects h !! self = Some (mkCalendarError (Some InvalidCalendarName_msg) kw)
      -> CalendarError_str self h
         = Ok ("The requested ExchangeCalendar, " ++ v
               ++ ", does not exist.")%string)
     /\ (objects h !! self
         = Some (mkCalendarError (Some CalendarNameCollision_msg) kw)
         -> CalendarError_str self h
            = Ok ("A calendar with the name " ++ v
                  ++ " is already registered.")%string))
  /\ (forall v,
        kw !! "cycle"%string = Some v ->
        objects h !! self = Some (mkCalendarError (Some CyclicCalendarAlias_msg) kw)
        -> CalendarError_str self h
           = Ok ("Cycle in calendar aliases: [" ++ v ++ "]")%string)
  /\ (forall v,
        kw !! "schedule"%string = Some v ->
        objects h !! self
        = Some (mkCalendarError (Some ScheduleFunctionWithoutCalendar_msg) kw)
        -> CalendarError_str self h
           = Ok ("To use schedule_function, the TradingAlgorithm must be running"
                 ++ " on an ExchangeTradingSchedule, rather than " ++ v
                 ++ ".")%string)
  /\ (forall g a,
        kw !! "given_calendar"%string = Some g ->
        kw !! "allowed_calendars"%string = Some a ->
        objects h !! self
        = Some (mkCalendarError (Some ScheduleFunctionInvalidCalendar_msg) kw)
        -> CalendarError_str self h
           = Ok ("Invalid calendar '" ++ g ++ "' passed to schedule_function. "
                 ++ "Allowed options are " ++ a ++ ".")%string).
Proof.
  split; [intros v K; split|split; [|split]].
  - intros O. rewrite (CalendarError_str_of _ _ _ _ O).
    unfold format, InvalidCalendarName_msg. cbv [format_from String.append].
    rewrite K. reflexivity.
  - intros O. rewrite (CalendarError_str_of _ _ _ _ O).
    unfold format, CalendarNameCollision_msg. cbv [format_from String.append].
    rewrite K. reflexivity.
  - intros v K O. rewrite (CalendarError_str_of _ _ _ _ O).
    unfold format, CyclicCalendarAlias_msg. cbv [format_from String.append].
    rewrite K. reflexivity.
  - intros v K O. rewrite (CalendarError_str_of _ _ _ _ O).
    unfold format, ScheduleFunctionWithoutCalendar_msg.
    cbv [format_from String.append]. rewrite K. reflexivity.
  - intros g a K1 K2 O. rewrite (CalendarError_str_of _ _ _ _ O).
    unfold format, ScheduleFunctionInvalidCalendar_msg.
    cbv [format_from String.append]. rewrite K1, K2. reflexivity.
Qed.

(** A collision on XNYS, created with a keyword more than the template
    names. *)
Lemma CalendarError_str_renders_witness :
  CalendarError_str 0%nat
    (snd (CalendarError_init (Some CalendarNameCollision_msg)
            {[ "calendar_name"%string := "XNYS"%string;
               "force"%string := "False"%string ]} empty_heap))
  = Ok "A calendar with the name XNYS is already registered."%string.
Proof.
  destruct (CalendarError_str_renders
              (snd (CalendarError_init (Some CalendarNameCollision_msg)
                      {[ "calendar_name"%string := "XNYS"%string;
                         "force"%string := "False"%string ]} empty_heap))
              0%nat
              {[ "calendar_name"%string := "XNYS"%string;
                 "force"%string := "False"%string ]}) as (H & _).
  destruct (H "XNYS"%string) as [_ C]; [vm_compute; reflexivity|].
  apply C. vm_compute. reflexivity.
Defined.

(** [str] raises [AttributeError] on an error of the base class itself, whose
    template is [None], whatever its keywords; it raises [KeyError] on an
    error of a class whose template names a keyword the error was created
    without, for the two-keyword template also when only the second is
    missing. *)
Theorem CalendarError_str_raises (h : Heap) (self : nat)
  (kw : gmap string string) :
  (objects h !! self = Some (mkCalendarError None kw) ->
   CalendarError_str self h = Raise AttributeError)
  /\ (kw !! "calendar_name"%string = None ->
      (objects h !! self = Some (mkCalendarError (Some InvalidCalendarName_msg) kw)
       -> CalendarError_str self h = Raise KeyError)
      /\ (objects h !! self
          = Some (mkCalendarError (Some CalendarNameCollision_msg) kw)
          -> CalendarError_str self h = Raise KeyError))
  /\ (kw !! "cycle"%string = None ->
      objects h !! self = Some (mkCalendarError (Some CyclicCalendarAlias_msg) kw)
      -> CalendarError_str self h = Raise KeyError)
  /\ (kw !! "schedule"%string = None ->
      objects h !! self
      = Some (mkCalendarError (Some ScheduleFunctionWithoutCalendar_msg) kw)
      -> CalendarError_str self h = Raise KeyError)
  /\ (kw !! "given_calendar"%string = None
      \/ kw !! "allowed_calendars"%string = None ->
      objects h !! self
      = Some (mkCalendarError (Some ScheduleFunctionInvalidCalendar_msg) kw)
      -> CalendarError_str self h = Raise KeyError).
Proof.
  split; [|split; [intros K; split|split; [|split]]].
  - intros O. unfold CalendarError_str. now rewrite O.
  - intros O. rewrite (CalendarError_str_of _ _ _ _ O).
    unfold format, InvalidCalendarName_msg. cbv [format_from String.append].
    rewrite K. reflexivity.
  - intros O. rewrite (CalendarError_str_of _ _ _ _ O).
    unfold format, CalendarNameCollision_msg. cbv [format_from String.append].
    rewrite K. reflexivity.
  - intros K O. rewrite (CalendarError_str_of _ _ _ _ O).
    unfold format, CyclicCalendarAlias_msg. cbv [format_from String.append].
    rewrite K. reflexivity.
  - intros K O. rewrite (CalendarError_str_of _ _ _ _ O).
    unfold format, ScheduleFunctionWithoutCalendar_msg.
    cbv [format_from String.append]. rewrite K. reflexivity.
  - intros K O. rewrite (CalendarError_str_of _ _ _ _ O).
    unfold format, ScheduleFunctionInvalidCalendar_msg.
    cbv [format_from String.append].
    destruct (kw !! "given_calendar"%string) as [g|] eqn:G;
      destruct (kw !! "allowed_calendars"%string) as [a|] eqn:A;
      try reflexivity.
    destruct K; discriminate.
Qed.

(** An [InvalidCalendarName] created without keywords, and a bare
    [CalendarError]. *)
Lemma CalendarError_str_raises_witness :
  CalendarError_str 0%nat
    (snd (CalendarError_init (Some InvalidCalendarName_msg) ∅ empty_heap))
  = Raise KeyError
  /\ CalendarError_str 0%nat
       (snd (CalendarError_init None
               {[ "calendar_name"%string := "XNYS"%string ]} empty_heap))
     = Raise AttributeError.
Proof.
  split.
  - destruct (CalendarError_str_raises
                (snd (CalendarError_init (Some InvalidCalendarName_msg) ∅
                        empty_heap)) 0%nat ∅) as (_ & K & _).
    destruct (K (lookup_empty _)) as [C _]. apply C. vm_compute. reflexivity.
  - destruct (CalendarError_str_raises
                (snd (CalendarError_init None
                        {[ "calendar_name"%string := "XNYS"%string ]}
                        empty_heap)) 0%nat
                {[ "calendar_name"%string := "XNYS"%string ]}) as (A & _).
    apply A. vm_compute. reflexivity.
Defined.

(** * Further properties of the futures calendar *)

(** The execution times of a futures session are 6:31 and 17:00 on the wall
    clock of the session's date, as the comment on the two offsets says, when
    the zone's offset at those times is the one in force at the open and at
    the close. *)
Theorem futures_execution_times (America_New_York : tzinfo)
  (base_weekmask : Z -> bool) (USNewYearsDay GoodFriday Christmas : HolidayRule)
  (d : datetime) (x : Session) :
  session_of (QuantopianUSFuturesCalendar America_New_York base_weekmask
                USNewYearsDay GoodFriday Christmas) d = Ok x ->
  utcoffset America_New_York (wall_minute d (time 6 31))
  = utcoffset America_New_York (wall_minute (d - 1) (time 18 1)) ->
  utcoffset America_New_York (wall_minute d (time 17 0))
  = utcoffset America_New_York (wall_minute d (time 18 0)) ->
  in_bounds (localize America_New_York d (time 6 31)) = true ->
  in_bounds (localize America_New_York d (time 17 0)) = true ->
  execution_time_from_open (open_instant x)
  = Ok (localize America_New_York d (time 6 31))
  /\ execution_time_from_close (close_instant x)
     = Ok (localize America_New_York d (time 17 0)).
Proof.
  intros S Oo Oc Bo Bc. injection S as <-. cbn [open_instant close_instant].
  unfold execution_time_from_open, execution_time_from_close.
  rewrite FUTURES_OPEN_TIME_OFFSET_nanos, FUTURES_CLOSE_TIME_OFFSET_nanos.
  unfold Timestamp_add. cbv zeta.
  assert (Eo : localize America_New_York (d + -1) (time 18 1)
               + (12 * NANOS_IN_HOUR + 30 * NANOS_IN_MINUTE)
               = localize America_New_York d (time 6 31)).
  { revert Oo. unfold localize, wall_minute, time, NANOS_IN_HOUR,
      NANOS_IN_MINUTE, MINUTES_IN_DAY, EPOCH_ORDINAL. cbv zeta.
    replace (d + -1) with (d - 1) by lia. intros ->. lia. }
  assert (Ec : localize America_New_York d (time 18 0) + - NANOS_IN_HOUR
               = localize America_New_York d (time 17 0)).
  { revert Oc. unfold localize, wall_minute, time, NANOS_IN_HOUR,
      NANOS_IN_MINUTE, MINUTES_IN_DAY, EPOCH_ORDINAL. cbv zeta.
    intros ->. lia. }
  rewrite Eo, Ec, Bo, Bc. split; reflexivity.
Qed.

(** The futures session of Friday 2021-03-12 in US Eastern time. *)
Lemma futures_execution_times_witness :
  exists x,
    session_of (QuantopianUSFuturesCalendar eastern_2021 (fun w => w <? 5)
                  (AdHoc []) (AdHoc []) (AdHoc []))
               (Timestamp_of_iso "2021-03-12") = Ok x
    /\ execution_time_from_open (open_instant x)
       = Ok (localize eastern_2021 (Timestamp_of_iso "2021-03-12") (time 6 31))
    /\ execution_time_from_close (close_instant x)
       = Ok (localize eastern_2021 (Timestamp_of_iso "2021-03-12") (time 17 0)).
Proof.
  eexists. split; [reflexivity|].
  apply (futures_execution_times eastern_2021 (fun w => w <? 5)
           (AdHoc []) (AdHoc []) (AdHoc []) (Timestamp_of_iso "2021-03-12"));
    reflexivity.
Defined.

(** A futures session lasts 23 hours 59 minutes on the wall clock, less what
    the zone's offset gains from open to close; and when the offset is the
    same at 18:00 and at 18:01 of a day, the session of the next day opens
    exactly one minute after the session of the day closes, so consecutive
    sessions never overlap. *)
Theorem futures_sessions_do_not_overlap (America_New_York : tzinfo)
  (base_weekmask : Z -> bool) (USNewYearsDay GoodFriday Christmas : HolidayRule)
  (d : datetime) (x x' : Session) :
  let cal := QuantopianUSFuturesCalendar America_New_York base_weekmask
               USNewYearsDay GoodFriday Christmas in
  session_of cal d = Ok x ->
  session_of cal (d + 1) = Ok x' ->
  close_instant x - open_instant x
  = (23 * 60 + 59
     - (utcoffset America_New_York (wall_minute d (time 18 0))
        - utcoffset America_New_York (wall_minute (d - 1) (time 18 1))))
    * NANOS_IN_MINUTE
  /\ (utcoffset America_New_York (wall_minute d (time 18 1))
      = utcoffset America_New_York (wall_minute d (time 18 0)) ->
      open_instant x' = close_instant x + NANOS_IN_MINUTE).
Proof.
  intros cal S S'. subst cal. injection S as <-. injection S' as <-.
  cbn [open_instant close_instant].
  unfold localize, wall_minute, time, NANOS_IN_MINUTE, MINUTES_IN_DAY,
    EPOCH_ORDINAL. cbv zeta.
  replace (d + -1) with (d - 1) by lia.
  replace (d + 1 + -1) with d by lia.
  split; [lia|]. intros ->. lia.
Qed.

(** The sessions dated Sunday 2021-03-14 and Monday 2021-03-15: the change
    to daylight saving time in the night to Sunday shortens the session dated
    Sunday, which the weekly pattern leaves out of the index, to 22 hours 59
    minutes; the session dated Monday opens one minute after it closes. *)
Lemma futures_sessions_do_not_overlap_witness :
  exists x x',
    session_of (QuantopianUSFuturesCalendar eastern_2021 (fun w => w <? 5)
                  (AdHoc []) (AdHoc []) (AdHoc []))
               (Timestamp_of_iso "2021-03-14") = Ok x
    /\ session_of (QuantopianUSFuturesCalendar eastern_2021 (fun w => w <? 5)
                     (AdHoc []) (AdHoc []) (AdHoc []))
                  (Timestamp_of_iso "2021-03-14" + 1) = Ok x'
    /\ close_instant x - open_instant x = (22 * 60 + 59) * NANOS_IN_MINUTE
    /\ open_instant x' = close_instant x + NANOS_IN_MINUTE.
Proof.
  eexists. eexists. split; [reflexivity|]. split; [reflexivity|].
  destruct (futures_sessions_do_not_overlap eastern_2021 (fun w => w <? 5)
              (AdHoc []) (AdHoc []) (AdHoc []) (Timestamp_of_iso "2021-03-14")
              _ _ eq_refl eq_refl) as [L G].
  split; [rewrite L; reflexivity | exact (G eq_refl)].
Defined.
